(** * BLE scan lifecycle and advertisement classification (src/blecsan.cpp)

    A shallow embedding of the four functions of [blecsan.cpp]
    ([gap_callback_handler], [register_ble_callback], [start_BLEscan],
    [stop_BLEscan]) together with the two VERBOSE helper tables, and the
    properties of the scan core established on it.

    Calls into the radio stack, the MAC queue, the logger and the reset
    routine are recorded, in program order, in a trace of [Call.t] values.
    Status codes that those calls hand back come from an environment
    record, so that "the code ignores the status" is a statement about
    every environment. *)

From Stdlib Require Import ZArith QArith Qround List Bool String Lia.
From Stdlib Require Floats Uint63.
Import ListNotations.
Local Open Scope Z_scope.

(** ** C strings: [strstr] over raw memory *)

Module CString.

(** The bytes readable from some address on, as values 0..255.  A C
    string is the run of bytes before the first NUL; when the readable
    memory holds no NUL the string functions run off its end, which the
    model reports as [None]. *)
Fixpoint c_str (mem : list Z) : option (list Z) :=
  match mem with
  | [] => None
  | c :: rest =>
      if c =? 0 then Some []
      else match c_str rest with
           | Some s => Some (c :: s)
           | None => None
           end
  end.

Fixpoint has_prefix (needle hay : list Z) : bool :=
  match needle, hay with
  | [], _ => true
  | _ :: _, [] => false
  | n :: needle', h :: hay' => (n =? h) && has_prefix needle' hay'
  end.

(** Offset of the first occurrence of [needle] in [hay], both without
    terminator; an empty needle is found at offset 0. *)
Fixpoint find_first (needle hay : list Z) : option nat :=
  if has_prefix needle hay then Some O
  else match hay with
       | [] => None
       | _ :: hay' => option_map S (find_first needle hay')
       end.

(** [strstr(haystack, needle)]: outer [None] is undefined behaviour
    (an unterminated argument), inner [None] is the NULL result. *)
Definition strstr (haystack needle : list Z) : option (option nat) :=
  match c_str haystack, c_str needle with
  | Some h, Some n => Some (find_first n h)
  | _, _ => None
  end.

(** Byte-array search over an explicit length, for comparison: does
    [sig] occur as a contiguous run inside [payload]? *)
Definition contains_bytes (sig payload : list Z) : bool :=
  match find_first sig payload with
  | Some _ => true
  | None => false
  end.

End CString.

(** ** Types of the radio stack and of the firmware used by the file *)

Definition esp_err_t := Z.
Definition ESP_OK : esp_err_t := 0.
Definition ESP_FAIL : esp_err_t := -1.

Inductive esp_ble_addr_type_t :=
| BLE_ADDR_TYPE_PUBLIC
| BLE_ADDR_TYPE_RANDOM
| BLE_ADDR_TYPE_RPA_PUBLIC
| BLE_ADDR_TYPE_RPA_RANDOM.

Inductive esp_gap_ble_cb_event_t :=
| ESP_GAP_BLE_SCAN_PARAM_SET_COMPLETE_EVT
| ESP_GAP_BLE_SCAN_RESULT_EVT
| ESP_GAP_BLE_OTHER_EVT (code : Z).

Inductive esp_gap_search_evt_t :=
| ESP_GAP_SEARCH_INQ_RES_EVT
| ESP_GAP_SEARCH_INQ_CMPL_EVT
| ESP_GAP_SEARCH_OTHER_EVT (code : Z).

Inductive esp_ble_scan_type_t := BLE_SCAN_TYPE_PASSIVE | BLE_SCAN_TYPE_ACTIVE.
Inductive esp_ble_scan_filter_t := BLE_SCAN_FILTER_ALLOW_ALL.
Inductive esp_ble_scan_duplicate_t :=
| BLE_SCAN_DUPLICATE_DISABLE
| BLE_SCAN_DUPLICATE_ENABLE.
Inductive esp_coex_prefer_t := ESP_COEX_PREFER_WIFI | ESP_COEX_PREFER_BT.
Inductive snifftype_t := MAC_SNIFF_BLE | MAC_SNIFF_BLE_ENS.
Inductive esp_log_level_t :=
| ESP_LOG_ERROR | ESP_LOG_INFO | ESP_LOG_DEBUG | ESP_LOG_VERBOSE.
Inductive log_arg := ArgZ (z : Z) | ArgS (s : string).

Record esp_ble_scan_params_t := {
  scan_type : esp_ble_scan_type_t;
  own_addr_type : esp_ble_addr_type_t;
  scan_filter_policy : esp_ble_scan_filter_t;
  scan_interval : Z;   (* uint16_t *)
  scan_window : Z;     (* uint16_t *)
  scan_duplicate : esp_ble_scan_duplicate_t
}.

(** What the handler can read through [p->scan_rst].  [ble_adv] is the run
    of bytes readable from [&p->scan_rst.ble_adv[0]] on ([[]] when not
    even the first one is); [adv_data_len] says how many of them are the
    received advertisement.  The handler never reads [adv_data_len]. *)
Record esp_ble_gap_cb_param_t := {
  search_evt : esp_gap_search_evt_t;
  bda : list Z;
  ble_addr_type : esp_ble_addr_type_t;
  rssi : Z;
  ble_adv : list Z;
  adv_data_len : nat
}.

Definition payload (p : esp_ble_gap_cb_param_t) : list Z :=
  firstn (adv_data_len p) (ble_adv p).

(** Compile-time switches and constants ([paxcounter.conf], build flags). *)
Record build := {
  BLECOUNTER : bool;
  MACFILTER : bool;
  COUNT_ENS : bool;
  VERBOSE : bool;
  BLESCANTIME : Z;
  BLESCANWINDOW : Z
}.

(** The fields of the global [cfg] the file reads. *)
Record configData_t := {
  blescantime : Z;
  enscount : Z
}.

(** ** Calls leaving the file *)

Module Call.
Inductive t :=
| ESP_LOG (level : esp_log_level_t) (tag fmt : string)
    (args : list log_arg)
| esp_ble_gap_start_scanning (duration : Z)
| esp_ble_gap_stop_scanning
| esp_ble_gap_register_callback (handler_installed : bool)
| esp_ble_gap_set_scan_params (params : esp_ble_scan_params_t)
| mac_add (paddr : list Z) (rssi : Z) (sniff_type : snifftype_t)
| btStart
| btStop
| esp_coex_preference_set (prefer : esp_coex_prefer_t)
| esp_bluedroid_init
| esp_bluedroid_enable
| esp_bluedroid_disable
| esp_bluedroid_deinit
| do_reset (warmstart : bool).
End Call.

(** What the environment answers to the calls. *)
Record env := {
  btStart_result : bool;
  btStop_result : bool;
  gap_register_callback_status : esp_err_t;
  gap_set_scan_params_status : esp_err_t;
  gap_start_scanning_status : esp_err_t;
  gap_stop_scanning_status : esp_err_t;
  bluedroid_init_status : esp_err_t;
  bluedroid_enable_status : esp_err_t;
  bluedroid_disable_status : esp_err_t;
  bluedroid_deinit_status : esp_err_t;
  coex_preference_status : esp_err_t
}.

(** Function-local statics: [ble_scan_params] of [register_ble_callback]
    is initialised the first time control passes its declaration. *)
Record statics := {
  ble_scan_params : option esp_ble_scan_params_t
}.

(** ** The effect monad *)

Inductive outcome (A : Type) :=
| Done (a : A)        (* ran to its end *)
| Restarted           (* do_reset took the device down *)
| Undefined.          (* a read outside readable memory *)
Arguments Done {A} a.
Arguments Restarted {A}.
Arguments Undefined {A}.

Record run (A : Type) := {
  result : outcome A;
  after : statics;
  trace : list Call.t
}.
Arguments result {A} _.
Arguments after {A} _.
Arguments trace {A} _.

Definition M (A : Type) := env -> statics -> run A.

Definition ret {A} (a : A) : M A :=
  fun _ st => {| result := Done a; after := st; trace := [] |}.

Definition bind {A B} (m : M A) (k : A -> M B) : M B :=
  fun e st =>
    let r := m e st in
    match result r with
    | Done a =>
        let r' := k a e (after r) in
        {| result := result r'; after := after r';
           trace := trace r ++ trace r' |}
    | Restarted => {| result := Restarted; after := after r; trace := trace r |}
    | Undefined => {| result := Undefined; after := after r; trace := trace r |}
    end.

Notation "x <- m ;; k" := (bind m (fun x => k))
  (at level 61, m at next level, right associativity).
Notation "m ;;; k" := (bind m (fun _ => k))
  (at level 61, right associativity).

Definition call {A} (c : Call.t) (answer : env -> A) : M A :=
  fun e st => {| result := Done (answer e); after := st; trace := [c] |}.

Definition undefined {A} : M A :=
  fun _ st => {| result := Undefined; after := st; trace := [] |}.

Definition when (c : bool) (m : M unit) : M unit :=
  if c then m else ret tt.

Definition get_statics : M statics :=
  fun _ st => {| result := Done st; after := st; trace := [] |}.

Definition put_statics (st : statics) : M unit :=
  fun _ _ => {| result := Done tt; after := st; trace := [] |}.

(** ** The calls as actions *)

Definition TAG : string := "bluetooth".

Definition ESP_LOGx (level : esp_log_level_t) (tag fmt : string)
    (args : list log_arg) : M unit :=
  call (Call.ESP_LOG level tag fmt args) (fun _ => tt).
Definition ESP_LOGE := ESP_LOGx ESP_LOG_ERROR.
Definition ESP_LOGI := ESP_LOGx ESP_LOG_INFO.
Definition ESP_LOGD := ESP_LOGx ESP_LOG_DEBUG.
Definition ESP_LOGV := ESP_LOGx ESP_LOG_VERBOSE.

Definition esp_ble_gap_start_scanning (duration : Z) : M esp_err_t :=
  call (Call.esp_ble_gap_start_scanning duration) gap_start_scanning_status.
Definition esp_ble_gap_stop_scanning : M esp_err_t :=
  call Call.esp_ble_gap_stop_scanning gap_stop_scanning_status.
Definition esp_ble_gap_register_callback (handler_installed : bool)
    : M esp_err_t :=
  call (Call.esp_ble_gap_register_callback handler_installed)
       gap_register_callback_status.
Definition esp_ble_gap_set_scan_params (params : esp_ble_scan_params_t)
    : M esp_err_t :=
  call (Call.esp_ble_gap_set_scan_params params) gap_set_scan_params_status.
Definition mac_add (paddr : list Z) (rssi : Z) (sniff_type : snifftype_t)
    : M unit :=
  call (Call.mac_add paddr rssi sniff_type) (fun _ => tt).
Definition btStart : M bool := call Call.btStart btStart_result.
Definition btStop : M bool := call Call.btStop btStop_result.
Definition esp_coex_preference_set (prefer : esp_coex_prefer_t)
    : M esp_err_t :=
  call (Call.esp_coex_preference_set prefer) coex_preference_status.
Definition esp_bluedroid_init : M esp_err_t :=
  call Call.esp_bluedroid_init bluedroid_init_status.
Definition esp_bluedroid_enable : M esp_err_t :=
  call Call.esp_bluedroid_enable bluedroid_enable_status.
Definition esp_bluedroid_disable : M esp_err_t :=
  call Call.esp_bluedroid_disable bluedroid_disable_status.
Definition esp_bluedroid_deinit : M esp_err_t :=
  call Call.esp_bluedroid_deinit bluedroid_deinit_status.

(** Modelled from the spec: [do_reset] lives in reset.cpp, which is not
    among the sources; spec section 4.1 and 7 call it the fatal device
    restart, so the call is recorded and control does not come back. *)
Definition do_reset (warmstart : bool) : M unit :=
  fun _ st =>
    {| result := Restarted; after := st; trace := [Call.do_reset warmstart] |}.

(** ** Conversion of milliseconds to 0.625 ms ticks *)

Module Ticks.

(** C++ conversion of a floating value to an integer drops the
    fraction. *)
Definition truncate (q : Q) : Z :=
  if Qle_bool 0 q then Qfloor q else Qceiling q.

(** A [uint16_t] holds the low 16 bits.  C++ leaves the conversion of a
    floating value outside 0..65535 undefined; the properties below are
    stated on the range where the value fits, so the wrap-around written
    here never decides them. *)
Definition to_uint16 (z : Z) : Z := z mod 65536.

(** [(uint16_t)(x / 0.625)] for an integer [x].  The divisor 0.625 is
    5/8, a binary fraction, and the quotient is taken over the rationals;
    [Binary64] below carries out the same division in double precision. *)
Definition ms_to_ticks (x : Z) : Z :=
  to_uint16 (truncate (inject_Z x / 0.625)).

End Ticks.

(** The same conversion carried out in IEEE 754 double precision, as the
    compiled code does it, for comparison with the rational model. *)
Module Binary64.

Import PrimFloat.

(** The integer part of a finite binary64 value. *)
Definition integer_part (f : SpecFloat.spec_float) : option Z :=
  match f with
  | SpecFloat.S754_zero _ => Some 0
  | SpecFloat.S754_finite s m e =>
      let magnitude :=
        match e with
        | Z0 => Zpos m
        | Zpos k => Zpos m * 2 ^ Zpos k
        | Zneg k => Zpos m / 2 ^ Zpos k
        end in
      Some (if s then - magnitude else magnitude)
  | SpecFloat.S754_infinity _ | SpecFloat.S754_nan => None
  end.

(** [(uint16_t)(x / 0.625)] computed in IEEE double precision. *)
Definition ms_to_ticks (x : Z) : option Z :=
  option_map Ticks.to_uint16
    (integer_part
       (FloatOps.Prim2SF
          (PrimFloat.div (PrimFloat.of_uint63 (Uint63.of_Z x))
             0.625%float))).

(** Do the double-precision and the rational computation agree on
    [x], [x + 1], ..., [x + n - 1]? *)
Fixpoint agrees_on (x : Z) (n : nat) : bool :=
  match n with
  | O => true
  | S n' =>
      match ms_to_ticks x with
      | Some z => (z =? Ticks.ms_to_ticks x) && agrees_on (x + 1) n'
      | None => false
      end
  end.

End Binary64.

(** ** VERBOSE helper tables *)

Definition bt_addr_t_to_string (type : esp_ble_addr_type_t) : string :=
  match type with
  | BLE_ADDR_TYPE_PUBLIC => "BLE_ADDR_TYPE_PUBLIC"
  | BLE_ADDR_TYPE_RANDOM => "BLE_ADDR_TYPE_RANDOM"
  | BLE_ADDR_TYPE_RPA_PUBLIC => "BLE_ADDR_TYPE_RPA_PUBLIC"
  | BLE_ADDR_TYPE_RPA_RANDOM => "BLE_ADDR_TYPE_RPA_RANDOM"
  end.

Definition btsig_gap_type (gap_type : Z) : string :=
  match gap_type with
  | 0x01 => "Flags"
  | 0x02 => "Incomplete List of 16-bit Service Class UUIDs"
  | 0x03 => "Complete List of 16-bit Service Class UUIDs"
  | 0x04 => "Incomplete List of 32-bit Service Class UUIDs"
  | 0x05 => "Complete List of 32-bit Service Class UUIDs"
  | 0x06 => "Incomplete List of 128-bit Service Class UUIDs"
  | 0x07 => "Complete List of 128-bit Service Class UUIDs"
  | 0x08 => "Shortened Local Name"
  | 0x09 => "Complete Local Name"
  | 0x0A => "Tx Power Level"
  | 0x0D => "Class of Device"
  | 0x0E => "Simple Pairing Hash C/C-192"
  | 0x0F => "Simple Pairing Randomizer R/R-192"
  | 0x10 => "Device ID/Security Manager TK Value"
  | 0x11 => "Security Manager Out of Band Flags"
  | 0x12 => "Slave Connection Interval Range"
  | 0x14 => "List of 16-bit Service Solicitation UUIDs"
  | 0x1F => "List of 32-bit Service Solicitation UUIDs"
  | 0x15 => "List of 128-bit Service Solicitation UUIDs"
  | 0x16 => "Service Data - 16-bit UUID"
  | 0x20 => "Service Data - 32-bit UUID"
  | 0x21 => "Service Data - 128-bit UUID"
  | 0x22 => "LE Secure Connections Confirmation Value"
  | 0x23 => "LE Secure Connections Random Value"
  | 0x24 => "URI"
  | 0x25 => "Indoor Positioning"
  | 0x26 => "Transport Discovery Data"
  | 0x17 => "Public Target Address"
  | 0x18 => "Random Target Address"
  | 0x19 => "Appearance"
  | 0x1A => "Advertising Interval"
  | 0x1B => "LE Bluetooth Device Address"
  | 0x1C => "LE Role"
  | 0x1D => "Simple Pairing Hash C-256"
  | 0x1E => "Simple Pairing Randomizer R-256"
  | 0x3D => "3D Information Data"
  | 0xFF => "Manufacturer Specific Data"
  | _ => "Unknown type"
  end.

(** ** The functions of blecsan.cpp *)

Definition search_evt_is (a b : esp_gap_search_evt_t) : bool :=
  match a, b with
  | ESP_GAP_SEARCH_INQ_RES_EVT, ESP_GAP_SEARCH_INQ_RES_EVT => true
  | ESP_GAP_SEARCH_INQ_CMPL_EVT, ESP_GAP_SEARCH_INQ_CMPL_EVT => true
  | ESP_GAP_SEARCH_OTHER_EVT x, ESP_GAP_SEARCH_OTHER_EVT y => x =? y
  | _, _ => false
  end.

Definition addr_type_is (a b : esp_ble_addr_type_t) : bool :=
  match a, b with
  | BLE_ADDR_TYPE_PUBLIC, BLE_ADDR_TYPE_PUBLIC => true
  | BLE_ADDR_TYPE_RANDOM, BLE_ADDR_TYPE_RANDOM => true
  | BLE_ADDR_TYPE_RPA_PUBLIC, BLE_ADDR_TYPE_RPA_PUBLIC => true
  | BLE_ADDR_TYPE_RPA_RANDOM, BLE_ADDR_TYPE_RPA_RANDOM => true
  | _, _ => false
  end.

(** [static const char ensMagicBytes[] = "\x16\x6f\xfd"], terminator
    included. *)
Definition ensMagicBytes : list Z := [0x16; 0x6f; 0xfd; 0x00].

(** [*ptr] on the first byte of a run of readable bytes. *)
Definition deref (mem : list Z) : M Z :=
  match mem with
  | [] => undefined
  | c :: _ => ret c
  end.

(** [strstr] as an action: undefined on unterminated memory, otherwise
    whether the result differs from NULL. *)
Definition strstr_not_null (haystack needle : list Z) : M bool :=
  match CString.strstr haystack needle with
  | None => undefined
  | Some (Some _) => ret true
  | Some None => ret false
  end.

Definition BT_BD_ADDR_HEX (addr : list Z) : list log_arg :=
  [ArgZ (nth 0 addr 0); ArgZ (nth 1 addr 0); ArgZ (nth 2 addr 0);
   ArgZ (nth 3 addr 0); ArgZ (nth 4 addr 0); ArgZ (nth 5 addr 0)].

Section Firmware.

Variable b : build.
Variable cfg : configData_t.

(** The MACFILTER test of the handler (lines 155-163). *)
Definition macfilter_rejects (type : esp_ble_addr_type_t) : bool :=
  MACFILTER b &&
  (addr_type_is type BLE_ADDR_TYPE_RANDOM ||
   addr_type_is type BLE_ADDR_TYPE_RPA_RANDOM).

Definition gap_callback_handler (event : esp_gap_ble_cb_event_t)
    (p : esp_ble_gap_cb_param_t) : M unit :=
  when (VERBOSE b)
    (t <- deref (ble_adv p) ;;
     ESP_LOGV TAG "BT payload rcvd -> type: 0x%.2x -> %s"
       [ArgZ t; ArgS (btsig_gap_type t)]) ;;;
  match event with
  | ESP_GAP_BLE_SCAN_PARAM_SET_COMPLETE_EVT =>
      (* restart scan *)
      esp_ble_gap_start_scanning (BLESCANTIME b) ;;; ret tt
  | ESP_GAP_BLE_SCAN_RESULT_EVT =>
      if search_evt_is (search_evt p) ESP_GAP_SEARCH_INQ_CMPL_EVT then
        (* Inquiry complete, scan is done: restart scan, return *)
        esp_ble_gap_start_scanning (BLESCANTIME b) ;;; ret tt
      else if search_evt_is (search_evt p) ESP_GAP_SEARCH_INQ_RES_EVT then
        (* Inquiry result for a peer device *)
        when (VERBOSE b)
          (ESP_LOGV TAG
             "Device address (bda): %02x:%02x:%02x:%02x:%02x:%02x"
             (BT_BD_ADDR_HEX (bda p)) ;;;
           ESP_LOGV TAG "Addr_type           : %s"
             [ArgS (bt_addr_t_to_string (ble_addr_type p))] ;;;
           ESP_LOGV TAG "RSSI                : %d" [ArgZ (rssi p)]) ;;;
        if macfilter_rejects (ble_addr_type p) then
          when (VERBOSE b) (ESP_LOGV TAG "BT device filtered" [])
        else if COUNT_ENS b then
          (* check for ens signature *)
          if negb (enscount cfg =? 0) then
            found <- strstr_not_null (ble_adv p) ensMagicBytes ;;
            if found then mac_add (bda p) (rssi p) MAC_SNIFF_BLE_ENS
            else mac_add (bda p) (rssi p) MAC_SNIFF_BLE
          else ret tt
        else mac_add (bda p) (rssi p) MAC_SNIFF_BLE
      else ret tt
  | ESP_GAP_BLE_OTHER_EVT _ => ret tt
  end.

(** The initialiser of the static [ble_scan_params]. *)
Definition ble_scan_params_init : esp_ble_scan_params_t :=
  {| scan_type := BLE_SCAN_TYPE_PASSIVE;
     own_addr_type := BLE_ADDR_TYPE_RANDOM;
     scan_filter_policy := BLE_SCAN_FILTER_ALLOW_ALL;
     scan_interval := Ticks.ms_to_ticks (blescantime cfg * 10);
     scan_window := Ticks.ms_to_ticks (BLESCANWINDOW b);
     scan_duplicate := BLE_SCAN_DUPLICATE_ENABLE |}.

Definition register_ble_callback (unregister : bool) : M esp_err_t :=
  (if unregister then
     ESP_LOGI TAG "Unregister GAP callback..." [] ;;;
     esp_ble_gap_stop_scanning ;;;
     esp_ble_gap_register_callback false ;;;
     ret tt
   else
     ESP_LOGI TAG "Register GAP callback..." [] ;;;
     esp_ble_gap_register_callback true ;;;
     st <- get_statics ;;
     params <- match ble_scan_params st with
               | Some params => ret params
               | None =>
                   put_statics
                     {| ble_scan_params := Some ble_scan_params_init |} ;;;
                   ret ble_scan_params_init
               end ;;
     ESP_LOGI TAG "Set GAP scan parameters" [] ;;;
     esp_ble_gap_set_scan_params params ;;;
     ret tt) ;;;
  ret ESP_OK.

Definition start_BLEscan : M unit :=
  when (BLECOUNTER b)
    (ESP_LOGI TAG "Initializing bluetooth scanner ..." [] ;;;
     started <- btStart ;;
     if started then
       esp_coex_preference_set ESP_COEX_PREFER_BT ;;;
       esp_bluedroid_init ;;;
       esp_bluedroid_enable ;;;
       register_ble_callback false ;;;
       ESP_LOGI TAG "Bluetooth scanner started" []
     else
       ESP_LOGE TAG "Bluetooth controller start failed. Resetting device"
         [] ;;;
       do_reset true).

Definition stop_BLEscan : M unit :=
  when (BLECOUNTER b)
    (ESP_LOGI TAG "Shutting down bluetooth scanner ..." [] ;;;
     register_ble_callback true ;;;
     ESP_LOGD TAG "bluedroid disable..." [] ;;;
     esp_bluedroid_disable ;;;
     ESP_LOGD TAG "bluedroid deinit..." [] ;;;
     esp_bluedroid_deinit ;;;
     stopped <- btStop ;;
     when (negb stopped)
       (ESP_LOGE TAG "Bluetooth controller stop failed. Resetting device"
          [] ;;;
        do_reset true) ;;;
     esp_coex_preference_set ESP_COEX_PREFER_WIFI ;;;
     ESP_LOGI TAG "Bluetooth scanner stopped" []).

(** The radio stack delivering events one after the other. *)
Fixpoint deliver
    (events : list (esp_gap_ble_cb_event_t * esp_ble_gap_cb_param_t))
    : M unit :=
  match events with
  | [] => ret tt
  | (event, p) :: rest => gap_callback_handler event p ;;; deliver rest
  end.

End Firmware.

(** ** Observations on a trace *)

(** Everything addressed to the radio stack and its controller. *)
Definition is_radio_command (c : Call.t) : bool :=
  match c with
  | Call.esp_ble_gap_start_scanning _
  | Call.esp_ble_gap_stop_scanning
  | Call.esp_ble_gap_register_callback _
  | Call.esp_ble_gap_set_scan_params _
  | Call.btStart
  | Call.btStop
  | Call.esp_coex_preference_set _
  | Call.esp_bluedroid_init
  | Call.esp_bluedroid_enable
  | Call.esp_bluedroid_disable
  | Call.esp_bluedroid_deinit => true
  | Call.ESP_LOG _ _ _ _ | Call.mac_add _ _ _ | Call.do_reset _ => false
  end.

Definition is_sighting (c : Call.t) : bool :=
  match c with
  | Call.mac_add _ _ _ => true
  | _ => false
  end.

Definition is_reset (c : Call.t) : bool :=
  match c with
  | Call.do_reset _ => true
  | _ => false
  end.

Definition radio_commands : list Call.t -> list Call.t := filter is_radio_command.
Definition sightings : list Call.t -> list Call.t := filter is_sighting.
Definition resets : list Call.t -> list Call.t := filter is_reset.

(** Modelled from the spec: the source keeps no session variable.  The
    [ScanSessionState] of spec section 3 moves along the transitions of
    section 4.2, read off the calls the code makes: parameters submitted,
    scanning begun, scanning stopped, controller stopped. *)
Inductive ScanSessionState := Idle | ParamsPending | Scanning | Stopping.

Definition session_step (s : ScanSessionState) (c : Call.t)
    : ScanSessionState :=
  match c, s with
  | Call.esp_ble_gap_set_scan_params _, Idle => ParamsPending
  | Call.esp_ble_gap_start_scanning _, ParamsPending => Scanning
  | Call.esp_ble_gap_start_scanning _, Scanning => Scanning
  | Call.esp_ble_gap_stop_scanning, Scanning => Stopping
  | Call.btStop, Stopping => Idle
  | _, _ => s
  end.

Definition session_after (s : ScanSessionState) (t : list Call.t)
    : ScanSessionState :=
  fold_left session_step t s.

(** ** When the handler's reads are within readable memory *)

Definition first_byte_readable (p : esp_ble_gap_cb_param_t) : bool :=
  match ble_adv p with
  | [] => false
  | _ :: _ => true
  end.

Definition payload_terminated (p : esp_ble_gap_cb_param_t) : bool :=
  match CString.c_str (ble_adv p) with
  | Some _ => true
  | None => false
  end.

(** The handler reaches its [strstr] call. *)
Definition reaches_strstr (b : build) (cfg : configData_t)
    (event : esp_gap_ble_cb_event_t) (p : esp_ble_gap_cb_param_t) : bool :=
  match event with
  | ESP_GAP_BLE_SCAN_RESULT_EVT =>
      search_evt_is (search_evt p) ESP_GAP_SEARCH_INQ_RES_EVT &&
      negb (macfilter_rejects b (ble_addr_type p)) &&
      COUNT_ENS b && negb (enscount cfg =? 0)
  | _ => false
  end.

Definition reads_ok (b : build) (cfg : configData_t)
    (event : esp_gap_ble_cb_event_t) (p : esp_ble_gap_cb_param_t) : bool :=
  implb (VERBOSE b) (first_byte_readable p) &&
  implb (reaches_strstr b cfg event p) (payload_terminated p).

(** A build that differs only in having the address filter compiled out. *)
Definition without_macfilter (b : build) : build :=
  {| BLECOUNTER := BLECOUNTER b; MACFILTER := false;
     COUNT_ENS := COUNT_ENS b; VERBOSE := VERBOSE b;
     BLESCANTIME := BLESCANTIME b; BLESCANWINDOW := BLESCANWINDOW b |}.

(** The signature the handler looks for, as bytes without terminator. *)
Definition ens_signature : list Z := [0x16; 0x6f; 0xfd].

(** Concrete builds, configurations and events used in the examples. *)
Module Sample.

Definition plain : build :=
  {| BLECOUNTER := true; MACFILTER := false; COUNT_ENS := false;
     VERBOSE := false; BLESCANTIME := 0; BLESCANWINDOW := 80 |}.

Definition filtering : build :=
  {| BLECOUNTER := true; MACFILTER := true; COUNT_ENS := false;
     VERBOSE := false; BLESCANTIME := 0; BLESCANWINDOW := 80 |}.

Definition ens : build :=
  {| BLECOUNTER := true; MACFILTER := true; COUNT_ENS := true;
     VERBOSE := false; BLESCANTIME := 0; BLESCANWINDOW := 80 |}.

Definition verbose : build :=
  {| BLECOUNTER := true; MACFILTER := true; COUNT_ENS := true;
     VERBOSE := true; BLESCANTIME := 0; BLESCANWINDOW := 80 |}.

Definition cfg_default : configData_t := {| blescantime := 8; enscount := 0 |}.
Definition cfg_ens : configData_t := {| blescantime := 8; enscount := 1 |}.
Definition cfg_short_cycle : configData_t := {| blescantime := 1; enscount := 0 |}.

Definition all_ok : env :=
  {| btStart_result := true; btStop_result := true;
     gap_register_callback_status := ESP_OK;
     gap_set_scan_params_status := ESP_OK;
     gap_start_scanning_status := ESP_OK;
     gap_stop_scanning_status := ESP_OK;
     bluedroid_init_status := ESP_OK;
     bluedroid_enable_status := ESP_OK;
     bluedroid_disable_status := ESP_OK;
     bluedroid_deinit_status := ESP_OK;
     coex_preference_status := ESP_OK |}.

Definition stop_fails : env :=
  {| btStart_result := true; btStop_result := false;
     gap_register_callback_status := ESP_OK;
     gap_set_scan_params_status := ESP_OK;
     gap_start_scanning_status := ESP_OK;
     gap_stop_scanning_status := ESP_OK;
     bluedroid_init_status := ESP_OK;
     bluedroid_enable_status := ESP_OK;
     bluedroid_disable_status := ESP_OK;
     bluedroid_deinit_status := ESP_OK;
     coex_preference_status := ESP_OK |}.

Definition params_rejected : env :=
  {| btStart_result := true; btStop_result := true;
     gap_register_callback_status := ESP_FAIL;
     gap_set_scan_params_status := ESP_FAIL;
     gap_start_scanning_status := ESP_OK;
     gap_stop_scanning_status := ESP_FAIL;
     bluedroid_init_status := ESP_OK;
     bluedroid_enable_status := ESP_OK;
     bluedroid_disable_status := ESP_OK;
     bluedroid_deinit_status := ESP_OK;
     coex_preference_status := ESP_OK |}.

(** Nothing started yet: the static is still uninitialised. *)
Definition fresh : statics := {| ble_scan_params := None |}.

Definition peer : list Z := [0xa4; 0xc1; 0x38; 0x10; 0x22; 0x7e].

(** Flags, then Apple manufacturer data (company id 0x004c, little
    endian), then 16-bit service data for UUID 0xfd6f; 11 bytes, the
    rest of the 62-byte buffer zero. *)
Definition adv_with_zero_before_signature : list Z :=
  [0x02; 0x01; 0x1a; 0x03; 0xff; 0x4c; 0x00; 0x03; 0x16; 0x6f; 0xfd]
  ++ repeat 0 51.

Definition result_event (type : esp_ble_addr_type_t) (adv : list Z)
    (len : nat) : esp_ble_gap_cb_param_t :=
  {| search_evt := ESP_GAP_SEARCH_INQ_RES_EVT; bda := peer;
     ble_addr_type := type; rssi := -60; ble_adv := adv;
     adv_data_len := len |}.

Definition inquiry_complete : esp_ble_gap_cb_param_t :=
  {| search_evt := ESP_GAP_SEARCH_INQ_CMPL_EVT; bda := repeat 0 6;
     ble_addr_type := BLE_ADDR_TYPE_PUBLIC; rssi := 0;
     ble_adv := repeat 0 62; adv_data_len := 0 |}.

(** A parameter block whose scan-result payload cannot be read. *)
Definition no_payload : esp_ble_gap_cb_param_t :=
  {| search_evt := ESP_GAP_SEARCH_OTHER_EVT 0; bda := [];
     ble_addr_type := BLE_ADDR_TYPE_PUBLIC; rssi := 0;
     ble_adv := []; adv_data_len := 0 |}.

End Sample.

(** ** Further observations *)

(** The events the handler answers with a scan start. *)
Definition is_restart_event
    (ep : esp_gap_ble_cb_event_t * esp_ble_gap_cb_param_t) : bool :=
  match fst ep with
  | ESP_GAP_BLE_SCAN_PARAM_SET_COMPLETE_EVT => true
  | ESP_GAP_BLE_SCAN_RESULT_EVT =>
      search_evt_is (search_evt (snd ep)) ESP_GAP_SEARCH_INQ_CMPL_EVT
  | ESP_GAP_BLE_OTHER_EVT _ => false
  end.

(** Which callback the radio stack holds after a run of calls: [true]
    for [gap_callback_handler], [false] for NULL. *)
Definition handler_installed_after (installed : bool) (t : list Call.t)
    : bool :=
  fold_left
    (fun i c =>
       match c with
       | Call.esp_ble_gap_register_callback h => h
       | _ => i
       end) t installed.

(** The coexistence preference in force after a run of calls. *)
Definition coex_preference_after (prefer : esp_coex_prefer_t)
    (t : list Call.t) : esp_coex_prefer_t :=
  fold_left
    (fun pr c =>
       match c with
       | Call.esp_coex_preference_set pr' => pr'
       | _ => pr
       end) t prefer.

(** [sig] occurs in [s] as a contiguous run. *)
Definition occurs_in (sig s : list Z) : Prop :=
  exists before behind, s = before ++ sig ++ behind.

(** The case labels of [btsig_gap_type], in source order. *)
Definition known_gap_types : list Z :=
  [0x01; 0x02; 0x03; 0x04; 0x05; 0x06; 0x07; 0x08; 0x09; 0x0A; 0x0D; 0x0E;
   0x0F; 0x10; 0x11; 0x12; 0x14; 0x1F; 0x15; 0x16; 0x20; 0x21; 0x22; 0x23;
   0x24; 0x25; 0x26; 0x17; 0x18; 0x19; 0x1A; 0x1B; 0x1C; 0x1D; 0x1E; 0x3D;
   0xFF].

(** Reading a logged name back: the first case label with that name. *)
Definition gap_type_of_name (name : string) : option Z :=
  find (fun t => String.eqb (btsig_gap_type t) name) known_gap_types.

(** ** setup() of main.cpp: the feature list and the Bluetooth bring-up *)

Module Setup.

(** Board and feature switches tested by [setup()] when it writes the
    feature list ([BLECOUNTER], [MACFILTER] and [COUNT_ENS] are in
    [build]).  [HAS_LED] stands for [HAS_LED != NOT_A_PIN]. *)
Record board := {
  EXT_POWER_SW : bool;
  HAS_PMU : bool;
  HAS_IP5306 : bool;
  HAS_DISPLAY : bool;
  BOARD_HAS_PSRAM : bool;
  HAS_LED : bool;
  HAS_TWO_LED : bool;
  HAS_RGB_LED : bool;
  HAS_ANTENNA_SWITCH : bool;
  BAT_MEASURE_ADC : bool;
  USE_OTA : bool;
  HAS_GPS : bool;
  HAS_SENSORS : bool;
  HAS_SENSOR_1 : bool;
  HAS_SENSOR_2 : bool;
  HAS_SENSOR_3 : bool;
  HAS_LORA : bool;
  HAS_SPI : bool;
  HAS_MQTT : bool;
  HAS_SDCARD : bool;
  HAS_SDS011 : bool;
  HAS_MATRIX_DISPLAY : bool;
  HAS_E_PAPER_DISPLAY : bool;
  PAYLOAD_ENCODER : Z;
  HAS_RTC : bool;
  HAS_DCF77 : bool;
  HAS_IF482 : bool;
  WIFICOUNTER : bool;
  HAS_BME : bool;
  HAS_BME680 : bool;
  HAS_BME280 : bool;
  HAS_BMP180 : bool;
  HAS_BUTTON : bool;
  BUTTON_PULLUP : bool;
  TIME_SYNC_LORAWAN : bool;
  TIME_SYNC_LORASERVER : bool
}.

(** What the three initialisers whose result decides a feature entry
    answer. *)
Record init_results := {
  cwa_init : bool;
  sdcard_init : bool;
  sds011_init : bool
}.

Definition feature (present : bool) (name : string) : list string :=
  if present then [name] else [].

(** The arguments of the [strcat_P(features, ...)] calls of [setup()],
    in program order. *)
Definition features_writes (b : build) (hw : board) (rt : init_results)
    : list string :=
  feature (EXT_POWER_SW hw) " VEXT"
  ++ feature (HAS_PMU hw || HAS_IP5306 hw) " PMU"
  ++ feature (HAS_DISPLAY hw) " OLED"
  ++ feature (BOARD_HAS_PSRAM hw) " PSRAM"
  ++ (if HAS_LED hw
      then [" LED"%string] ++ feature (HAS_TWO_LED hw) " LED1"
           ++ feature (HAS_RGB_LED hw) " RGB"
      else [])
  ++ feature (HAS_ANTENNA_SWITCH hw) " ANT"
  ++ feature (BAT_MEASURE_ADC hw || HAS_PMU hw || HAS_IP5306 hw) " BATT"
  ++ feature (USE_OTA hw) " OTA"
  ++ feature (BLECOUNTER b) " BLE"
  ++ feature (HAS_GPS hw) " GPS"
  ++ (if HAS_SENSORS hw
      then (if HAS_SENSOR_1 hw
            then (if COUNT_ENS b then feature (cwa_init rt) " CWA"
                  else [" SENS(1)"%string])
            else [])
           ++ feature (HAS_SENSOR_2 hw) " SENS(2)"
           ++ feature (HAS_SENSOR_3 hw) " SENS(3)"
      else [])
  ++ feature (HAS_LORA hw) " LORA"
  ++ feature (HAS_SPI hw) " SPI"
  ++ feature (HAS_MQTT hw) " MQTT"
  ++ feature (HAS_SDCARD hw && sdcard_init rt) " SD"
  ++ feature (HAS_SDS011 hw && sds011_init rt) " SDS"
  ++ feature (MACFILTER b) " FILTER"
  ++ feature (HAS_MATRIX_DISPLAY hw) " LED_MATRIX"
  ++ feature (HAS_E_PAPER_DISPLAY hw) " E-INK display"
  ++ (if PAYLOAD_ENCODER hw =? 1 then [" PLAIN"%string]
      else if PAYLOAD_ENCODER hw =? 2 then [" PACKED"%string]
      else if PAYLOAD_ENCODER hw =? 3 then [" LPPDYN"%string]
      else if PAYLOAD_ENCODER hw =? 4 then [" LPPPKD"%string]
      else [])
  ++ feature (HAS_RTC hw) " RTC"
  ++ feature (HAS_DCF77 hw) " DCF77"
  ++ feature (HAS_IF482 hw) " IF482"
  ++ feature (WIFICOUNTER hw) " WIFI"
  ++ (if HAS_BME hw
      then (if HAS_BME680 hw then [" BME680"%string]
            else if HAS_BME280 hw then [" BME280"%string]
            else if HAS_BMP180 hw then [" BMP180"%string]
            else [])
      else [])
  ++ (if HAS_BUTTON hw
      then [" BTN_"%string;
            if BUTTON_PULLUP hw then "PU"%string else "PD"%string]
      else [])
  ++ feature (TIME_SYNC_LORAWAN hw || TIME_SYNC_LORASERVER hw
              || HAS_GPS hw || HAS_RTC hw) " TIME".

(** [char features[100]]. *)
Definition FEATURES_SIZE : nat := 100.

(** [strcat_P(features, s)]: the buffer must hold the result and its
    terminator; [None] once a write has gone past the end. *)
Definition strcat_P (buffer : option string) (s : string) : option string :=
  match buffer with
  | Some f =>
      if (String.length f + String.length s <? FEATURES_SIZE)%nat
      then Some (f ++ s)%string
      else None
  | None => None
  end.

(** The buffer when [setup()] logs it, all calls in between having
    returned. *)
Definition features (b : build) (hw : board) (rt : init_results)
    : option string :=
  fold_left strcat_P (features_writes b hw rt) (Some ""%string).

(** The room the feature list needs, terminator not counted. *)
Definition features_length (b : build) (hw : board) (rt : init_results)
    : nat :=
  list_sum (map String.length (features_writes b hw rt)).

Inductive esp_bt_mode_t := ESP_BT_MODE_BTDM.

(** Calls of the Bluetooth block: those of the scanner file, and two
    more. *)
Inductive call :=
| scanner (c : Call.t)
| strcat_P_features (s : string)
| esp_bt_mem_release (mode : esp_bt_mode_t).

Record block_run := {
  ended : outcome unit;
  statics_after : statics;
  calls : list call
}.

(** Lines 340-360 of [setup()]: start the scanner if it is enabled in
    [cfg], otherwise stop the controller; in a build without the BLE
    counter, take the Bluetooth stack out of memory.  [TAG] is
    [__FILE__]; [blescan] is [cfg.blescan]. *)
Definition bluetooth_block (LIBPAX : bool) (TAG : string) (b : build)
    (blescan : Z) (cfg : configData_t) (e : env) (st : statics)
    : block_run :=
  if BLECOUNTER b then
    if LIBPAX then
      {| ended := Done tt; statics_after := st;
         calls := [strcat_P_features " BLE"] |}
    else if negb (blescan =? 0) then
      let r := start_BLEscan b cfg e st in
      {| ended := result r; statics_after := after r;
         calls :=
           strcat_P_features " BLE"
           :: scanner (Call.ESP_LOG ESP_LOG_INFO TAG "Starting Bluetooth..." [])
           :: map scanner (trace r) |}
    else
      {| ended := Done tt; statics_after := st;
         calls := [strcat_P_features " BLE"; scanner Call.btStop] |}
  else if LIBPAX then
    {| ended := Done tt; statics_after := st; calls := [] |}
  else
    {| ended := Done tt; statics_after := st;
       calls :=
         [scanner Call.btStop; esp_bt_mem_release ESP_BT_MODE_BTDM;
          scanner (Call.esp_coex_preference_set ESP_COEX_PREFER_WIFI)] |}.

(** The calls of the block that go to the scanner file's interfaces. *)
Definition scanner_calls (t : list call) : list Call.t :=
  flat_map (fun c => match c with scanner c' => [c'] | _ => [] end) t.

End Setup.

(** A T-Beam-like board with three user sensors, SD card, RTC and an
    environment sensor. *)
Definition board_with_many_features : Setup.board :=
  {| Setup.EXT_POWER_SW := false; Setup.HAS_PMU := true;
     Setup.HAS_IP5306 := false; Setup.HAS_DISPLAY := true;
     Setup.BOARD_HAS_PSRAM := true; Setup.HAS_LED := true;
     Setup.HAS_TWO_LED := false; Setup.HAS_RGB_LED := false;
     Setup.HAS_ANTENNA_SWITCH := false; Setup.BAT_MEASURE_ADC := false;
     Setup.USE_OTA := true; Setup.HAS_GPS := true;
     Setup.HAS_SENSORS := true; Setup.HAS_SENSOR_1 := true;
     Setup.HAS_SENSOR_2 := true; Setup.HAS_SENSOR_3 := true;
     Setup.HAS_LORA := true; Setup.HAS_SPI := false;
     Setup.HAS_MQTT := false; Setup.HAS_SDCARD := true;
     Setup.HAS_SDS011 := false; Setup.HAS_MATRIX_DISPLAY := false;
     Setup.HAS_E_PAPER_DISPLAY := false; Setup.PAYLOAD_ENCODER := 2;
     Setup.HAS_RTC := true; Setup.HAS_DCF77 := false;
     Setup.HAS_IF482 := false; Setup.WIFICOUNTER := true;
     Setup.HAS_BME := true; Setup.HAS_BME680 := true;
     Setup.HAS_BME280 := false; Setup.HAS_BMP180 := false;
     Setup.HAS_BUTTON := true; Setup.BUTTON_PULLUP := true;
     Setup.TIME_SYNC_LORAWAN := false;
     Setup.TIME_SYNC_LORASERVER := false |}.

Definition all_inits_ok : Setup.init_results :=
  {| Setup.cwa_init := true; Setup.sdcard_init := true;
     Setup.sds011_init := true |}.

(** ** Basic facts about the monad and the trace observations *)

Lemma bind_assoc {A B C} (m : M A) (k : A -> M B) (h : B -> M C) e st :
  bind (bind m k) h e st = bind m (fun a => bind (k a) h) e st.
Proof.
  unfold bind; cbn.
  destruct (result (m e st)) as [a| |]; cbn; try reflexivity.
  destruct (result (k a e (after (m e st)))); cbn;
    try reflexivity.
  now rewrite app_assoc.
Qed.

Lemma radio_commands_app t1 t2 :
  radio_commands (t1 ++ t2) = radio_commands t1 ++ radio_commands t2.
Proof. apply filter_app. Qed.

Lemma sightings_app t1 t2 : sightings (t1 ++ t2) = sightings t1 ++ sightings t2.
Proof. apply filter_app. Qed.

Lemma resets_app t1 t2 : resets (t1 ++ t2) = resets t1 ++ resets t2.
Proof. apply filter_app. Qed.

(** ** The handler, case by case *)

Arguments CString.find_first : simpl never.

Ltac handler_cases b cfg p :=
  unfold gap_callback_handler, reads_ok, reaches_strstr, first_byte_readable,
    payload_terminated, macfilter_rejects, strstr_not_null, CString.strstr;
  destruct (VERBOSE b), (MACFILTER b), (COUNT_ENS b), (enscount cfg =? 0),
    (ble_adv p) as [|c0 adv], (search_evt p) as [| |?],
    (ble_addr_type p); cbn;
  try reflexivity.

(** The handler neither reads the environment nor touches the statics. *)
Lemma handler_frame b cfg event p e st e' st' :
  result (gap_callback_handler b cfg event p e st)
    = result (gap_callback_handler b cfg event p e' st') /\
  trace (gap_callback_handler b cfg event p e st)
    = trace (gap_callback_handler b cfg event p e' st') /\
  after (gap_callback_handler b cfg event p e st) = st.
Proof.
  destruct event; handler_cases b cfg p; auto;
    destruct (c0 =? 0); cbn; auto;
    destruct (CString.c_str adv) as [s|]; cbn; auto;
    destruct (CString.find_first _ _); cbn; auto.
Qed.

(** Exactly the runs with all reads inside readable memory finish. *)
Lemma handler_done_iff b cfg event p e st :
  result (gap_callback_handler b cfg event p e st) = Done tt
  <-> reads_ok b cfg event p = true.
Proof.
  destruct event; handler_cases b cfg p;
    try (split; [reflexivity || discriminate | reflexivity || discriminate]);
    destruct (c0 =? 0); cbn;
    try (split; [reflexivity || discriminate | reflexivity || discriminate]);
    destruct (CString.c_str adv) as [s|]; cbn;
    try (split; [reflexivity || discriminate | reflexivity || discriminate]);
    destruct (CString.find_first _ _); cbn;
    split; reflexivity || discriminate.
Qed.

Lemma handler_never_restarts b cfg event p e st :
  result (gap_callback_handler b cfg event p e st) <> Restarted /\
  resets (trace (gap_callback_handler b cfg event p e st)) = [].
Proof.
  destruct event; handler_cases b cfg p; try (split; [discriminate | reflexivity]);
    destruct (c0 =? 0); cbn; try (split; [discriminate | reflexivity]);
    destruct (CString.c_str adv) as [s|]; cbn;
    try (split; [discriminate | reflexivity]);
    destruct (CString.find_first _ _); cbn; split; discriminate || reflexivity.
Qed.

(** The two restart paths of the handler: one start command, nothing
    else but the VERBOSE log line. *)
Lemma param_set_complete_run b cfg p e st :
  reads_ok b cfg ESP_GAP_BLE_SCAN_PARAM_SET_COMPLETE_EVT p = true ->
  result (gap_callback_handler b cfg ESP_GAP_BLE_SCAN_PARAM_SET_COMPLETE_EVT
            p e st) = Done tt /\
  radio_commands
    (trace (gap_callback_handler b cfg
              ESP_GAP_BLE_SCAN_PARAM_SET_COMPLETE_EVT p e st))
    = [Call.esp_ble_gap_start_scanning (BLESCANTIME b)] /\
  sightings
    (trace (gap_callback_handler b cfg
              ESP_GAP_BLE_SCAN_PARAM_SET_COMPLETE_EVT p e st)) = [].
Proof.
  unfold gap_callback_handler, reads_ok, reaches_strstr, first_byte_readable.
  destruct (VERBOSE b), (ble_adv p); cbn; intros H;
    try discriminate; repeat split; reflexivity.
Qed.

(** ** Sequences of events *)

Lemma bind_ext {A B} (m : M A) (k k' : A -> M B) e st :
  (forall a e1 st1, k a e1 st1 = k' a e1 st1) ->
  bind m k e st = bind m k' e st.
Proof.
  intros H; unfold bind; cbn.
  destruct (result (m e st)); try reflexivity.
  now rewrite H.
Qed.

Lemma bind_ret_l {A B} (a : A) (k : A -> M B) e st :
  bind (ret a) k e st = k a e st.
Proof. unfold bind, ret; cbn. now destruct (k a e st). Qed.

Lemma deliver_app b cfg l1 l2 e st :
  deliver b cfg (l1 ++ l2) e st
  = bind (deliver b cfg l1) (fun _ => deliver b cfg l2) e st.
Proof.
  revert e st; induction l1 as [|[event p] l1 IH]; intros e st.
  - cbn [app deliver]. now rewrite bind_ret_l.
  - cbn [app deliver]. rewrite bind_assoc. apply bind_ext.
    intros _ e1 st1. apply IH.
Qed.

Lemma deliver_done b cfg l e st :
  Forall (fun ep => reads_ok b cfg (fst ep) (snd ep) = true) l ->
  result (deliver b cfg l e st) = Done tt /\ after (deliver b cfg l e st) = st.
Proof.
  revert st; induction l as [|[event p] l IH]; intros st H.
  - split; reflexivity.
  - inversion H as [|x l' Hx Hl]; subst; cbn [fst snd] in Hx.
    apply (handler_done_iff b cfg event p e st) in Hx.
    destruct (handler_frame b cfg event p e st e st) as (_ & _ & Hst).
    cbn [deliver]; unfold bind; rewrite Hx, Hst; cbn.
    apply IH, Hl.
Qed.

Lemma bind_done_trace {A B} (m : M A) (k : A -> M B) e st a :
  result (m e st) = Done a ->
  trace (bind m k e st) = trace (m e st) ++ trace (k a e (after (m e st))) /\
  result (bind m k e st) = result (k a e (after (m e st))) /\
  after (bind m k e st) = after (k a e (after (m e st))).
Proof. intros H; unfold bind; rewrite H; cbn; auto. Qed.

(** ** Restart on completion *)

(** C1.  An inquiry-complete sub-event (a scan-result event whose
    [search_evt] is [ESP_GAP_SEARCH_INQ_CMPL_EVT]) makes the handler issue
    exactly one [esp_ble_gap_start_scanning], hand nothing to [mac_add],
    and leave a Scanning session Scanning.  The only read the handler
    makes on this path is the VERBOSE one of the first payload byte. *)
Theorem inquiry_complete_restarts_scan b cfg p e st :
  search_evt p = ESP_GAP_SEARCH_INQ_CMPL_EVT ->
  (VERBOSE b = true -> first_byte_readable p = true) ->
  result (gap_callback_handler b cfg ESP_GAP_BLE_SCAN_RESULT_EVT p e st)
    = Done tt /\
  radio_commands
    (trace (gap_callback_handler b cfg ESP_GAP_BLE_SCAN_RESULT_EVT p e st))
    = [Call.esp_ble_gap_start_scanning (BLESCANTIME b)] /\
  sightings
    (trace (gap_callback_handler b cfg ESP_GAP_BLE_SCAN_RESULT_EVT p e st))
    = [] /\
  session_after Scanning
    (trace (gap_callback_handler b cfg ESP_GAP_BLE_SCAN_RESULT_EVT p e st))
    = Scanning.
Proof.
  intros Hevt Hread.
  unfold gap_callback_handler, first_byte_readable in *.
  rewrite Hevt.
  destruct (VERBOSE b).
  - specialize (Hread eq_refl).
    destruct (ble_adv p) as [|c adv]; [discriminate|].
    cbn. repeat split; reflexivity.
  - cbn. repeat split; reflexivity.
Qed.

Lemma inquiry_complete_restarts_scan_witness :
  result (gap_callback_handler Sample.verbose Sample.cfg_ens
            ESP_GAP_BLE_SCAN_RESULT_EVT Sample.inquiry_complete
            Sample.all_ok Sample.fresh) = Done tt /\
  radio_commands
    (trace (gap_callback_handler Sample.verbose Sample.cfg_ens
              ESP_GAP_BLE_SCAN_RESULT_EVT Sample.inquiry_complete
              Sample.all_ok Sample.fresh))
    = [Call.esp_ble_gap_start_scanning 0] /\
  sightings
    (trace (gap_callback_handler Sample.verbose Sample.cfg_ens
              ESP_GAP_BLE_SCAN_RESULT_EVT Sample.inquiry_complete
              Sample.all_ok Sample.fresh)) = [] /\
  session_after Scanning
    (trace (gap_callback_handler Sample.verbose Sample.cfg_ens
              ESP_GAP_BLE_SCAN_RESULT_EVT Sample.inquiry_complete
              Sample.all_ok Sample.fresh)) = Scanning.
Proof.
  apply (inquiry_complete_restarts_scan Sample.verbose Sample.cfg_ens
           Sample.inquiry_complete Sample.all_ok Sample.fresh).
  - reflexivity.
  - intros _. reflexivity.
Defined.

(** Ten completions in a row: ten restarts, still Scanning. *)
Example ten_inquiry_completes :
  let events :=
    repeat (ESP_GAP_BLE_SCAN_RESULT_EVT, Sample.inquiry_complete) 10 in
  let r := deliver Sample.plain Sample.cfg_default events
             Sample.all_ok Sample.fresh in
  result r = Done tt /\
  trace r = repeat (Call.esp_ble_gap_start_scanning 0) 10 /\
  session_after Scanning (trace r) = Scanning.
Proof. repeat split; reflexivity. Qed.

(** The start scenario of spec section 8: the scanner start leaves the
    session waiting for its parameters, and the parameter-set-complete
    event that follows begins the scan. *)
Example start_then_param_set_complete :
  let started :=
    start_BLEscan Sample.plain Sample.cfg_default Sample.all_ok
      Sample.fresh in
  let handled :=
    gap_callback_handler Sample.plain Sample.cfg_default
      ESP_GAP_BLE_SCAN_PARAM_SET_COMPLETE_EVT Sample.no_payload
      Sample.all_ok (after started) in
  session_after Idle (trace started) = ParamsPending /\
  radio_commands (trace handled) = [Call.esp_ble_gap_start_scanning 0] /\
  session_after Idle (trace started ++ trace handled) = Scanning.
Proof. repeat split; reflexivity. Qed.

(** C5, as the code has it.  Wherever a parameter-set-complete event
    stands in a sequence of delivered events, the radio commands of the
    whole run are those of the events before it, then exactly one
    [esp_ble_gap_start_scanning], then those of the events after it; the
    duration passed is the build constant [BLESCANTIME]. *)
Theorem param_set_complete_starts_scan b cfg pre p post e st :
  Forall (fun ep => reads_ok b cfg (fst ep) (snd ep) = true)
    (pre ++ (ESP_GAP_BLE_SCAN_PARAM_SET_COMPLETE_EVT, p) :: post) ->
  result (deliver b cfg
            (pre ++ (ESP_GAP_BLE_SCAN_PARAM_SET_COMPLETE_EVT, p) :: post)
            e st) = Done tt /\
  radio_commands
    (trace (deliver b cfg
              (pre ++ (ESP_GAP_BLE_SCAN_PARAM_SET_COMPLETE_EVT, p) :: post)
              e st))
  = radio_commands (trace (deliver b cfg pre e st))
    ++ Call.esp_ble_gap_start_scanning (BLESCANTIME b)
    :: radio_commands (trace (deliver b cfg post e st)).
Proof.
  intros Hall.
  split; [apply (deliver_done b cfg _ e st Hall)|].
  apply Forall_app in Hall as [Hpre Hrest].
  inversion Hrest as [|x l Hp Hpost]; subst; cbn [fst snd] in Hp.
  destruct (deliver_done b cfg pre e st Hpre) as [Dpre Apre].
  destruct (param_set_complete_run b cfg p e st Hp) as (Dp & Rp & _).
  destruct (handler_frame b cfg ESP_GAP_BLE_SCAN_PARAM_SET_COMPLETE_EVT
              p e st e st) as (_ & _ & Ap).
  rewrite deliver_app.
  destruct (bind_done_trace (deliver b cfg pre)
              (fun _ => deliver b cfg
                 ((ESP_GAP_BLE_SCAN_PARAM_SET_COMPLETE_EVT, p) :: post))
              e st tt Dpre) as (-> & _ & _).
  rewrite Apre. cbn [deliver].
  destruct (bind_done_trace
              (gap_callback_handler b cfg
                 ESP_GAP_BLE_SCAN_PARAM_SET_COMPLETE_EVT p)
              (fun _ => deliver b cfg post) e st tt Dp) as (-> & _ & _).
  rewrite Ap, !radio_commands_app, Rp. reflexivity.
Qed.

Lemma param_set_complete_starts_scan_witness :
  result (deliver Sample.verbose Sample.cfg_ens
            ([(ESP_GAP_BLE_SCAN_RESULT_EVT, Sample.inquiry_complete)]
             ++ (ESP_GAP_BLE_SCAN_PARAM_SET_COMPLETE_EVT,
                 Sample.inquiry_complete)
             :: [(ESP_GAP_BLE_SCAN_RESULT_EVT,
                  Sample.result_event BLE_ADDR_TYPE_PUBLIC
                    Sample.adv_with_zero_before_signature 11)])
            Sample.all_ok Sample.fresh) = Done tt /\
  radio_commands
    (trace (deliver Sample.verbose Sample.cfg_ens
              ([(ESP_GAP_BLE_SCAN_RESULT_EVT, Sample.inquiry_complete)]
               ++ (ESP_GAP_BLE_SCAN_PARAM_SET_COMPLETE_EVT,
                   Sample.inquiry_complete)
               :: [(ESP_GAP_BLE_SCAN_RESULT_EVT,
                    Sample.result_event BLE_ADDR_TYPE_PUBLIC
                      Sample.adv_with_zero_before_signature 11)])
              Sample.all_ok Sample.fresh))
  = radio_commands
      (trace (deliver Sample.verbose Sample.cfg_ens
                [(ESP_GAP_BLE_SCAN_RESULT_EVT, Sample.inquiry_complete)]
                Sample.all_ok Sample.fresh))
    ++ Call.esp_ble_gap_start_scanning (BLESCANTIME Sample.verbose)
    :: radio_commands
         (trace (deliver Sample.verbose Sample.cfg_ens
                   [(ESP_GAP_BLE_SCAN_RESULT_EVT,
                     Sample.result_event BLE_ADDR_TYPE_PUBLIC
                       Sample.adv_with_zero_before_signature 11)]
                   Sample.all_ok Sample.fresh)).
Proof.
  apply (param_set_complete_starts_scan Sample.verbose Sample.cfg_ens).
  repeat constructor.
Defined.

(** C5, as the claim words it, fails: with the scan duration 0 (scan
    until stopped) and an 80 ms scan window, the start command after a
    parameter-set-complete event carries 0, which is neither the window
    in milliseconds nor the window in ticks submitted at registration. *)
Lemma start_duration_is_not_the_scan_window :
  radio_commands
    (trace (gap_callback_handler Sample.plain Sample.cfg_default
              ESP_GAP_BLE_SCAN_PARAM_SET_COMPLETE_EVT Sample.no_payload
              Sample.all_ok Sample.fresh))
    = [Call.esp_ble_gap_start_scanning 0] /\
  BLESCANWINDOW Sample.plain = 80 /\
  scan_window (ble_scan_params_init Sample.plain Sample.cfg_default) = 128 /\
  radio_commands
    (trace (gap_callback_handler Sample.plain Sample.cfg_default
              ESP_GAP_BLE_SCAN_PARAM_SET_COMPLETE_EVT Sample.no_payload
              Sample.all_ok Sample.fresh))
    <> [Call.esp_ble_gap_start_scanning (BLESCANWINDOW Sample.plain)] /\
  radio_commands
    (trace (gap_callback_handler Sample.plain Sample.cfg_default
              ESP_GAP_BLE_SCAN_PARAM_SET_COMPLETE_EVT Sample.no_payload
              Sample.all_ok Sample.fresh))
    <> [Call.esp_ble_gap_start_scanning
          (scan_window (ble_scan_params_init Sample.plain Sample.cfg_default))].
Proof.
  repeat split; try reflexivity; vm_compute; discriminate.
Qed.

(** ** Address filter *)

(** The MACFILTER test, in terms of the switch and the address type. *)
Lemma macfilter_rejects_iff b type :
  macfilter_rejects b type = true <->
  MACFILTER b = true /\
  (type = BLE_ADDR_TYPE_RANDOM \/ type = BLE_ADDR_TYPE_RPA_RANDOM).
Proof.
  unfold macfilter_rejects.
  destruct (MACFILTER b), type; cbn; intuition congruence.
Qed.

(** An inquiry result the filter rejects: the handler leaves at the
    [break], with nothing sent to the radio stack or to [mac_add]. *)
Lemma rejected_result_run b cfg p e st :
  search_evt p = ESP_GAP_SEARCH_INQ_RES_EVT ->
  reads_ok b cfg ESP_GAP_BLE_SCAN_RESULT_EVT p = true ->
  macfilter_rejects b (ble_addr_type p) = true ->
  result (gap_callback_handler b cfg ESP_GAP_BLE_SCAN_RESULT_EVT p e st)
    = Done tt /\
  radio_commands
    (trace (gap_callback_handler b cfg ESP_GAP_BLE_SCAN_RESULT_EVT p e st))
    = [] /\
  sightings
    (trace (gap_callback_handler b cfg ESP_GAP_BLE_SCAN_RESULT_EVT p e st))
    = [].
Proof.
  intros Hevt Hok Hrej.
  unfold reads_ok, reaches_strstr, first_byte_readable in Hok.
  unfold gap_callback_handler.
  rewrite Hevt, Hrej in *.
  destruct (VERBOSE b), (ble_adv p); cbn in *;
    try discriminate; repeat split; reflexivity.
Qed.

(** An inquiry result the filter lets pass, in a build that counts it:
    the handler files the peer, once, under the address and signal
    strength of the event. *)
Lemma passed_result_run b cfg p e st :
  search_evt p = ESP_GAP_SEARCH_INQ_RES_EVT ->
  reads_ok b cfg ESP_GAP_BLE_SCAN_RESULT_EVT p = true ->
  COUNT_ENS b = false \/ enscount cfg <> 0 ->
  macfilter_rejects b (ble_addr_type p) = false ->
  result (gap_callback_handler b cfg ESP_GAP_BLE_SCAN_RESULT_EVT p e st)
    = Done tt /\
  radio_commands
    (trace (gap_callback_handler b cfg ESP_GAP_BLE_SCAN_RESULT_EVT p e st))
    = [] /\
  exists kind,
    sightings
      (trace (gap_callback_handler b cfg ESP_GAP_BLE_SCAN_RESULT_EVT p e st))
    = [Call.mac_add (bda p) (rssi p) kind].
Proof.
  intros Hevt Hok Hens Hpass.
  rewrite <- Z.eqb_neq in Hens.
  unfold reads_ok, reaches_strstr, first_byte_readable, payload_terminated
    in Hok.
  unfold gap_callback_handler, strstr_not_null, CString.strstr.
  rewrite Hevt, Hpass in *.
  destruct (VERBOSE b), (COUNT_ENS b), (enscount cfg =? 0),
    (ble_adv p) as [|c0 adv]; cbn in *;
    try discriminate; try (destruct Hens; discriminate);
    try (repeat split; eexists; reflexivity);
    destruct (c0 =? 0); cbn in *;
    try (repeat split; eexists; reflexivity);
    destruct (CString.c_str adv) as [s|]; cbn in *; try discriminate;
    destruct (CString.find_first _ _); cbn;
    repeat split; eexists; reflexivity.
Qed.

(** C4.  An inquiry result (reads inside readable memory, in a build
    that counts it: no signature count, or [cfg.enscount] non-zero) is
    dropped by the handler exactly when MACFILTER is compiled in and the
    address type is RANDOM or RPA_RANDOM; a dropped result causes no call
    to the radio stack or to [mac_add].  A PUBLIC or RPA_PUBLIC result
    is filed, once and under its own address and signal strength,
    whether or not the filter is compiled in, and so is every result
    when it is not; a result that is not dropped is handled exactly as
    in the build without the filter. *)
Theorem address_filter_policy b cfg p e st :
  search_evt p = ESP_GAP_SEARCH_INQ_RES_EVT ->
  reads_ok b cfg ESP_GAP_BLE_SCAN_RESULT_EVT p = true ->
  COUNT_ENS b = false \/ enscount cfg <> 0 ->
  result (gap_callback_handler b cfg ESP_GAP_BLE_SCAN_RESULT_EVT p e st)
    = Done tt /\
  (sightings
     (trace (gap_callback_handler b cfg ESP_GAP_BLE_SCAN_RESULT_EVT p e st))
   = [] <->
   MACFILTER b = true /\
   (ble_addr_type p = BLE_ADDR_TYPE_RANDOM \/
    ble_addr_type p = BLE_ADDR_TYPE_RPA_RANDOM)) /\
  (MACFILTER b = true /\
   (ble_addr_type p = BLE_ADDR_TYPE_RANDOM \/
    ble_addr_type p = BLE_ADDR_TYPE_RPA_RANDOM) ->
   radio_commands
     (trace (gap_callback_handler b cfg ESP_GAP_BLE_SCAN_RESULT_EVT p e st))
   = [] /\
   sightings
     (trace (gap_callback_handler b cfg ESP_GAP_BLE_SCAN_RESULT_EVT p e st))
   = []) /\
  (ble_addr_type p = BLE_ADDR_TYPE_PUBLIC \/
   ble_addr_type p = BLE_ADDR_TYPE_RPA_PUBLIC ->
   exists kind,
     sightings
       (trace (gap_callback_handler b cfg ESP_GAP_BLE_SCAN_RESULT_EVT p e st))
     = [Call.mac_add (bda p) (rssi p) kind]) /\
  (MACFILTER b = false ->
   exists kind,
     sightings
       (trace (gap_callback_handler b cfg ESP_GAP_BLE_SCAN_RESULT_EVT p e st))
     = [Call.mac_add (bda p) (rssi p) kind]) /\
  (~ (MACFILTER b = true /\
      (ble_addr_type p = BLE_ADDR_TYPE_RANDOM \/
       ble_addr_type p = BLE_ADDR_TYPE_RPA_RANDOM)) ->
   gap_callback_handler b cfg ESP_GAP_BLE_SCAN_RESULT_EVT p e st
   = gap_callback_handler (without_macfilter b) cfg
       ESP_GAP_BLE_SCAN_RESULT_EVT p e st).
Proof.
  intros Hevt Hok Hens.
  pose proof (macfilter_rejects_iff b (ble_addr_type p)) as Hiff.
  destruct (macfilter_rejects b (ble_addr_type p)) eqn:Hrej.
  - destruct (rejected_result_run b cfg p e st Hevt Hok Hrej)
      as (HD & HR & HS).
    assert (Hcond := proj1 Hiff eq_refl).
    split; [exact HD|]. split; [tauto|]. split; [tauto|].
    destruct Hcond as [HM Htype].
    split; [|split].
    + intros [Hp | Hp]; rewrite Hp in Htype;
        destruct Htype; discriminate.
    + intros HM'. congruence.
    + intros Hnot. elim Hnot. tauto.
  - destruct (passed_result_run b cfg p e st Hevt Hok Hens Hrej)
      as (HD & HR & kind & HS).
    assert (Hcond : ~ (MACFILTER b = true /\
                       (ble_addr_type p = BLE_ADDR_TYPE_RANDOM \/
                        ble_addr_type p = BLE_ADDR_TYPE_RPA_RANDOM))).
    { intros H. apply Hiff in H. discriminate. }
    split; [exact HD|]. split; [|split; [tauto|]].
    + rewrite HS. split; [discriminate | intros H; elim (Hcond H)].
    + split; [|split].
      * intros _. now exists kind.
      * intros _. now exists kind.
      * intros _. unfold gap_callback_handler.
        change (macfilter_rejects (without_macfilter b) (ble_addr_type p))
          with false.
        rewrite Hrej. reflexivity.
Qed.

Lemma address_filter_policy_witness :
  result (gap_callback_handler Sample.filtering Sample.cfg_default
            ESP_GAP_BLE_SCAN_RESULT_EVT
            (Sample.result_event BLE_ADDR_TYPE_RPA_RANDOM
               Sample.adv_with_zero_before_signature 11)
            Sample.all_ok Sample.fresh) = Done tt /\
  (sightings
     (trace (gap_callback_handler Sample.filtering Sample.cfg_default
               ESP_GAP_BLE_SCAN_RESULT_EVT
               (Sample.result_event BLE_ADDR_TYPE_RPA_RANDOM
                  Sample.adv_with_zero_before_signature 11)
               Sample.all_ok Sample.fresh))
   = [] <->
   MACFILTER Sample.filtering = true /\
   (ble_addr_type
      (Sample.result_event BLE_ADDR_TYPE_RPA_RANDOM
         Sample.adv_with_zero_before_signature 11) = BLE_ADDR_TYPE_RANDOM \/
    ble_addr_type
      (Sample.result_event BLE_ADDR_TYPE_RPA_RANDOM
         Sample.adv_with_zero_before_signature 11)
    = BLE_ADDR_TYPE_RPA_RANDOM)) /\
  (MACFILTER Sample.filtering = true /\
   (ble_addr_type
      (Sample.result_event BLE_ADDR_TYPE_RPA_RANDOM
         Sample.adv_with_zero_before_signature 11) = BLE_ADDR_TYPE_RANDOM \/
    ble_addr_type
      (Sample.result_event BLE_ADDR_TYPE_RPA_RANDOM
         Sample.adv_with_zero_before_signature 11)
    = BLE_ADDR_TYPE_RPA_RANDOM) ->
   radio_commands
     (trace (gap_callback_handler Sample.filtering Sample.cfg_default
               ESP_GAP_BLE_SCAN_RESULT_EVT
               (Sample.result_event BLE_ADDR_TYPE_RPA_RANDOM
                  Sample.adv_with_zero_before_signature 11)
               Sample.all_ok Sample.fresh))
   = [] /\
   sightings
     (trace (gap_callback_handler Sample.filtering Sample.cfg_default
               ESP_GAP_BLE_SCAN_RESULT_EVT
               (Sample.result_event BLE_ADDR_TYPE_RPA_RANDOM
                  Sample.adv_with_zero_before_signature 11)
               Sample.all_ok Sample.fresh))
   = []) /\
  (ble_addr_type
     (Sample.result_event BLE_ADDR_TYPE_RPA_RANDOM
        Sample.adv_with_zero_before_signature 11) = BLE_ADDR_TYPE_PUBLIC \/
   ble_addr_type
     (Sample.result_event BLE_ADDR_TYPE_RPA_RANDOM
        Sample.adv_with_zero_before_signature 11)
   = BLE_ADDR_TYPE_RPA_PUBLIC ->
   exists kind,
     sightings
       (trace (gap_callback_handler Sample.filtering Sample.cfg_default
                 ESP_GAP_BLE_SCAN_RESULT_EVT
                 (Sample.result_event BLE_ADDR_TYPE_RPA_RANDOM
                    Sample.adv_with_zero_before_signature 11)
                 Sample.all_ok Sample.fresh))
     = [Call.mac_add
          (bda (Sample.result_event BLE_ADDR_TYPE_RPA_RANDOM
                  Sample.adv_with_zero_before_signature 11))
          (rssi (Sample.result_event BLE_ADDR_TYPE_RPA_RANDOM
                   Sample.adv_with_zero_before_signature 11)) kind]) /\
  (MACFILTER Sample.filtering = false ->
   exists kind,
     sightings
       (trace (gap_callback_handler Sample.filtering Sample.cfg_default
                 ESP_GAP_BLE_SCAN_RESULT_EVT
                 (Sample.result_event BLE_ADDR_TYPE_RPA_RANDOM
                    Sample.adv_with_zero_before_signature 11)
                 Sample.all_ok Sample.fresh))
     = [Call.mac_add
          (bda (Sample.result_event BLE_ADDR_TYPE_RPA_RANDOM
                  Sample.adv_with_zero_before_signature 11))
          (rssi (Sample.result_event BLE_ADDR_TYPE_RPA_RANDOM
                   Sample.adv_with_zero_before_signature 11)) kind]) /\
  (~ (MACFILTER Sample.filtering = true /\
      (ble_addr_type
         (Sample.result_event BLE_ADDR_TYPE_RPA_RANDOM
            Sample.adv_with_zero_before_signature 11)
       = BLE_ADDR_TYPE_RANDOM \/
       ble_addr_type
         (Sample.result_event BLE_ADDR_TYPE_RPA_RANDOM
            Sample.adv_with_zero_before_signature 11)
       = BLE_ADDR_TYPE_RPA_RANDOM)) ->
   gap_callback_handler Sample.filtering Sample.cfg_default
     ESP_GAP_BLE_SCAN_RESULT_EVT
     (Sample.result_event BLE_ADDR_TYPE_RPA_RANDOM
        Sample.adv_with_zero_before_signature 11)
     Sample.all_ok Sample.fresh
   = gap_callback_handler (without_macfilter Sample.filtering)
       Sample.cfg_default ESP_GAP_BLE_SCAN_RESULT_EVT
       (Sample.result_event BLE_ADDR_TYPE_RPA_RANDOM
          Sample.adv_with_zero_before_signature 11)
       Sample.all_ok Sample.fresh).
Proof.
  apply (address_filter_policy Sample.filtering Sample.cfg_default
           (Sample.result_event BLE_ADDR_TYPE_RPA_RANDOM
              Sample.adv_with_zero_before_signature 11)
           Sample.all_ok Sample.fresh).
  - reflexivity.
  - reflexivity.
  - left. reflexivity.
Defined.

(** The four address types against the filter, on one and the same
    advertisement: with the filter compiled in the two random types are
    dropped and the two public ones filed; without it all four are
    filed. *)
Example filter_on_each_address_type :
  map (fun type =>
         trace (gap_callback_handler Sample.filtering Sample.cfg_default
                  ESP_GAP_BLE_SCAN_RESULT_EVT
                  (Sample.result_event type
                     Sample.adv_with_zero_before_signature 11)
                  Sample.all_ok Sample.fresh))
    [BLE_ADDR_TYPE_PUBLIC; BLE_ADDR_TYPE_RANDOM;
     BLE_ADDR_TYPE_RPA_PUBLIC; BLE_ADDR_TYPE_RPA_RANDOM]
  = [[Call.mac_add Sample.peer (-60) MAC_SNIFF_BLE]; [];
     [Call.mac_add Sample.peer (-60) MAC_SNIFF_BLE]; []] /\
  map (fun type =>
         trace (gap_callback_handler Sample.plain Sample.cfg_default
                  ESP_GAP_BLE_SCAN_RESULT_EVT
                  (Sample.result_event type
                     Sample.adv_with_zero_before_signature 11)
                  Sample.all_ok Sample.fresh))
    [BLE_ADDR_TYPE_PUBLIC; BLE_ADDR_TYPE_RANDOM;
     BLE_ADDR_TYPE_RPA_PUBLIC; BLE_ADDR_TYPE_RPA_RANDOM]
  = [[Call.mac_add Sample.peer (-60) MAC_SNIFF_BLE];
     [Call.mac_add Sample.peer (-60) MAC_SNIFF_BLE];
     [Call.mac_add Sample.peer (-60) MAC_SNIFF_BLE];
     [Call.mac_add Sample.peer (-60) MAC_SNIFF_BLE]].
Proof. split; reflexivity. Qed.

(** ** The VERBOSE read *)

(** C10.  In a VERBOSE build the handler reads the first byte behind
    [p->scan_rst.ble_adv] before it looks at the event kind: whatever the
    event, the run is undefined, with nothing done yet, when that byte
    cannot be read, and otherwise the first entry of the trace is the log
    line built from it. *)
Theorem verbose_reads_first_payload_byte b cfg event p e st :
  VERBOSE b = true ->
  (ble_adv p = [] ->
     result (gap_callback_handler b cfg event p e st) = Undefined /\
     trace (gap_callback_handler b cfg event p e st) = []) /\
  (forall c adv, ble_adv p = c :: adv ->
     exists rest,
       trace (gap_callback_handler b cfg event p e st)
       = Call.ESP_LOG ESP_LOG_VERBOSE TAG
           "BT payload rcvd -> type: 0x%.2x -> %s"
           [ArgZ c; ArgS (btsig_gap_type c)] :: rest) /\
  (result (gap_callback_handler b cfg event p e st) = Done tt ->
     first_byte_readable p = true).
Proof.
  intros HV. repeat split.
  - unfold gap_callback_handler. rewrite HV, H. reflexivity.
  - unfold gap_callback_handler. rewrite HV, H. reflexivity.
  - intros c adv Hadv. unfold gap_callback_handler. rewrite HV, Hadv.
    unfold when, bind at 1. cbn.
    eexists. reflexivity.
  - intros HD. apply handler_done_iff in HD. unfold reads_ok in HD.
    rewrite HV in HD. cbn in HD. now apply andb_true_iff in HD.
Qed.

Lemma verbose_reads_first_payload_byte_witness :
  (ble_adv Sample.no_payload = [] ->
     result (gap_callback_handler Sample.verbose Sample.cfg_ens
               ESP_GAP_BLE_SCAN_PARAM_SET_COMPLETE_EVT Sample.no_payload
               Sample.all_ok Sample.fresh) = Undefined /\
     trace (gap_callback_handler Sample.verbose Sample.cfg_ens
              ESP_GAP_BLE_SCAN_PARAM_SET_COMPLETE_EVT Sample.no_payload
              Sample.all_ok Sample.fresh) = []) /\
  (forall c adv, ble_adv Sample.no_payload = c :: adv ->
     exists rest,
       trace (gap_callback_handler Sample.verbose Sample.cfg_ens
                ESP_GAP_BLE_SCAN_PARAM_SET_COMPLETE_EVT Sample.no_payload
                Sample.all_ok Sample.fresh)
       = Call.ESP_LOG ESP_LOG_VERBOSE TAG
           "BT payload rcvd -> type: 0x%.2x -> %s"
           [ArgZ c; ArgS (btsig_gap_type c)] :: rest) /\
  (result (gap_callback_handler Sample.verbose Sample.cfg_ens
             ESP_GAP_BLE_SCAN_PARAM_SET_COMPLETE_EVT Sample.no_payload
             Sample.all_ok Sample.fresh) = Done tt ->
     first_byte_readable Sample.no_payload = true).
Proof.
  apply (verbose_reads_first_payload_byte Sample.verbose Sample.cfg_ens
           ESP_GAP_BLE_SCAN_PARAM_SET_COMPLETE_EVT Sample.no_payload
           Sample.all_ok Sample.fresh).
  reflexivity.
Defined.

(** Without VERBOSE the same lifecycle event needs no payload at all. *)
Example param_set_complete_without_verbose :
  gap_callback_handler Sample.plain Sample.cfg_default
    ESP_GAP_BLE_SCAN_PARAM_SET_COMPLETE_EVT Sample.no_payload
    Sample.all_ok Sample.fresh
  = {| result := Done tt; after := Sample.fresh;
       trace := [Call.esp_ble_gap_start_scanning 0] |}.
Proof. reflexivity. Qed.

(** ** Status codes and the restart path *)

(** C9.  [register_ble_callback] returns [ESP_OK] whatever the mode and
    whatever the radio primitives answer; the answers influence neither
    the calls made nor the static. *)
Theorem register_ble_callback_returns_ok b cfg unregister e st :
  result (register_ble_callback b cfg unregister e st) = Done ESP_OK /\
  (forall e',
     trace (register_ble_callback b cfg unregister e' st)
       = trace (register_ble_callback b cfg unregister e st) /\
     after (register_ble_callback b cfg unregister e' st)
       = after (register_ble_callback b cfg unregister e st)).
Proof.
  unfold register_ble_callback.
  destruct unregister; [|destruct st as [[params|]]]; cbn;
    split; try reflexivity; intros e'; split; reflexivity.
Qed.

(** A rejected set-scan-parameters command goes unnoticed: registration
    reports [ESP_OK] and the scanner start completes. *)
Example rejected_scan_params_not_reported :
  gap_set_scan_params_status Sample.params_rejected = ESP_FAIL /\
  result (register_ble_callback Sample.plain Sample.cfg_default false
            Sample.params_rejected Sample.fresh) = Done ESP_OK /\
  result (start_BLEscan Sample.plain Sample.cfg_default
            Sample.params_rejected Sample.fresh) = Done tt.
Proof. repeat split; reflexivity. Qed.

(** C6.  [start_BLEscan] either completes or ends in the device restart,
    the latter exactly when [btStart] fails; [stop_BLEscan] likewise with
    [btStop]; in both the restart is the single [do_reset(true)] call.
    Neither [register_ble_callback] nor the event handler ever calls
    [do_reset]. *)
Theorem only_controller_failure_restarts b cfg e st :
  (result (start_BLEscan b cfg e st) = Done tt \/
   result (start_BLEscan b cfg e st) = Restarted) /\
  (result (start_BLEscan b cfg e st) = Restarted <->
     BLECOUNTER b = true /\ btStart_result e = false) /\
  resets (trace (start_BLEscan b cfg e st))
    = (if BLECOUNTER b && negb (btStart_result e)
       then [Call.do_reset true] else []) /\
  (result (stop_BLEscan b cfg e st) = Done tt \/
   result (stop_BLEscan b cfg e st) = Restarted) /\
  (result (stop_BLEscan b cfg e st) = Restarted <->
     BLECOUNTER b = true /\ btStop_result e = false) /\
  resets (trace (stop_BLEscan b cfg e st))
    = (if BLECOUNTER b && negb (btStop_result e)
       then [Call.do_reset true] else []) /\
  (forall unregister,
     result (register_ble_callback b cfg unregister e st) = Done ESP_OK /\
     resets (trace (register_ble_callback b cfg unregister e st)) = []) /\
  (forall event p,
     result (gap_callback_handler b cfg event p e st) <> Restarted /\
     resets (trace (gap_callback_handler b cfg event p e st)) = []).
Proof.
  unfold start_BLEscan, stop_BLEscan, register_ble_callback.
  repeat match goal with |- _ /\ _ => split end.
  1-6: destruct (BLECOUNTER b), e as [[|] [|] ? ? ? ? ? ? ? ? ?],
         st as [[params|]]; cbn; auto;
       intuition congruence.
  - intros [|]; destruct st as [[params|]]; cbn; auto.
  - intros event p. apply handler_never_restarts.
Qed.

(** ** Stopping *)

(** C8, as the code has it.  [stop_BLEscan] consults no session state: in
    a BLECOUNTER build it always runs the whole teardown.  It leaves the
    static untouched and an Idle session Idle, completes exactly when
    [btStop] succeeds, and otherwise ends in [do_reset(true)]. *)
Theorem stop_BLEscan_unconditional b cfg e st :
  BLECOUNTER b = true ->
  radio_commands (trace (stop_BLEscan b cfg e st))
    = [Call.esp_ble_gap_stop_scanning;
       Call.esp_ble_gap_register_callback false;
       Call.esp_bluedroid_disable; Call.esp_bluedroid_deinit; Call.btStop]
      ++ (if btStop_result e
          then [Call.esp_coex_preference_set ESP_COEX_PREFER_WIFI]
          else []) /\
  result (stop_BLEscan b cfg e st)
    = (if btStop_result e then Done tt else Restarted) /\
  resets (trace (stop_BLEscan b cfg e st))
    = (if btStop_result e then [] else [Call.do_reset true]) /\
  after (stop_BLEscan b cfg e st) = st /\
  session_after Idle (trace (stop_BLEscan b cfg e st)) = Idle.
Proof.
  intros HB. unfold stop_BLEscan, register_ble_callback. rewrite HB.
  destruct e as [bs [|] ? ? ? ? ? ? ? ? ?]; cbn; repeat split; reflexivity.
Qed.

Lemma stop_BLEscan_unconditional_witness :
  radio_commands
    (trace (stop_BLEscan Sample.plain Sample.cfg_default Sample.all_ok
              Sample.fresh))
    = [Call.esp_ble_gap_stop_scanning;
       Call.esp_ble_gap_register_callback false;
       Call.esp_bluedroid_disable; Call.esp_bluedroid_deinit; Call.btStop]
      ++ (if btStop_result Sample.all_ok
          then [Call.esp_coex_preference_set ESP_COEX_PREFER_WIFI]
          else []) /\
  result (stop_BLEscan Sample.plain Sample.cfg_default Sample.all_ok
            Sample.fresh)
    = (if btStop_result Sample.all_ok then Done tt else Restarted) /\
  resets
    (trace (stop_BLEscan Sample.plain Sample.cfg_default Sample.all_ok
              Sample.fresh))
    = (if btStop_result Sample.all_ok then [] else [Call.do_reset true]) /\
  after (stop_BLEscan Sample.plain Sample.cfg_default Sample.all_ok
           Sample.fresh) = Sample.fresh /\
  session_after Idle
    (trace (stop_BLEscan Sample.plain Sample.cfg_default Sample.all_ok
              Sample.fresh)) = Idle.
Proof.
  apply (stop_BLEscan_unconditional Sample.plain Sample.cfg_default
           Sample.all_ok Sample.fresh).
  reflexivity.
Defined.

(** C8, as the claim words it, fails on a device whose scanner was never
    started: the stop is not a no-op (five commands go to the radio stack
    and the coexistence preference is set), and when [btStop] reports
    failure the device is restarted. *)
Lemma stop_on_idle_is_not_a_noop :
  radio_commands
    (trace (stop_BLEscan Sample.plain Sample.cfg_default Sample.all_ok
              Sample.fresh))
    = [Call.esp_ble_gap_stop_scanning;
       Call.esp_ble_gap_register_callback false;
       Call.esp_bluedroid_disable; Call.esp_bluedroid_deinit; Call.btStop;
       Call.esp_coex_preference_set ESP_COEX_PREFER_WIFI] /\
  trace (stop_BLEscan Sample.plain Sample.cfg_default Sample.all_ok
           Sample.fresh) <> [] /\
  result (stop_BLEscan Sample.plain Sample.cfg_default Sample.stop_fails
            Sample.fresh) = Restarted /\
  resets
    (trace (stop_BLEscan Sample.plain Sample.cfg_default Sample.stop_fails
              Sample.fresh)) = [Call.do_reset true].
Proof. repeat split; try reflexivity; vm_compute; discriminate. Qed.

(** ** Scan parameters in ticks *)

(** Double precision and the rationals give the same ticks up to
    10240 ms, the longest window or interval the radio takes (0x4000
    ticks). *)
Lemma agrees_on_sound n : forall x0,
  Binary64.agrees_on x0 n = true ->
  forall x, x0 <= x < x0 + Z.of_nat n ->
    Binary64.ms_to_ticks x = Some (Ticks.ms_to_ticks x).
Proof.
  induction n as [|n IH]; intros x0 H x Hx; [lia|].
  cbn [Binary64.agrees_on] in H.
  destruct (Binary64.ms_to_ticks x0) as [z|] eqn:E; [|discriminate].
  apply andb_true_iff in H as [Hz Hn].
  destruct (Z.eq_dec x x0) as [->|Hne].
  - rewrite E. f_equal. now apply Z.eqb_eq.
  - apply (IH (x0 + 1)); [assumption|lia].
Qed.

Lemma double_division_matches_rational x :
  0 <= x <= 10240 -> Binary64.ms_to_ticks x = Some (Ticks.ms_to_ticks x).
Proof.
  intros Hx.
  assert (H : Binary64.agrees_on 0 (Z.to_nat 10241) = true)
    by (vm_compute; reflexivity).
  apply (agrees_on_sound _ _ H). lia.
Qed.

Lemma ms_to_ticks_floor x :
  0 <= x <= 40959 -> Ticks.ms_to_ticks x = 8 * x / 5.
Proof.
  intros Hx. unfold Ticks.ms_to_ticks, Ticks.truncate, Ticks.to_uint16.
  assert (Hq : Qfloor (inject_Z x / 0.625) = 8 * x / 5).
  { unfold Qfloor, Qdiv, Qmult, Qinv, inject_Z; cbn -[Z.mul Z.div].
    replace (x * 1000) with (8 * x * 125) by lia.
    change 625 with (5 * 125).
    apply Z.div_mul_cancel_r; lia. }
  assert (Hpos : Qle_bool 0 (inject_Z x / 0.625) = true).
  { apply Qle_bool_iff.
    unfold Qle, Qdiv, Qmult, Qinv, inject_Z; cbn -[Z.mul]. lia. }
  rewrite Hpos, Hq.
  apply Z.mod_small.
  split; [apply Z.div_pos; lia | apply Z.div_lt_upper_bound; lia].
Qed.

(** C7, as the code has it.  For a scan-cycle setting [t] (tens of
    milliseconds) up to 4095 and a scan window [w] up to 40959 ms, the
    first scanner start submits an interval of exactly [16 * t] ticks and
    a window of [8 * w / 5] ticks with the fraction dropped (exact when
    [w] is a multiple of 5), both within 16 bits; the window does not
    exceed the interval when [w <= 10 * t]. *)
Theorem scan_parameters_in_ticks b cfg e :
  0 <= blescantime cfg <= 4095 ->
  0 <= BLESCANWINDOW b <= 40959 ->
  BLECOUNTER b = true ->
  btStart_result e = true ->
  radio_commands
    (trace (start_BLEscan b cfg e {| ble_scan_params := None |}))
    = [Call.btStart; Call.esp_coex_preference_set ESP_COEX_PREFER_BT;
       Call.esp_bluedroid_init; Call.esp_bluedroid_enable;
       Call.esp_ble_gap_register_callback true;
       Call.esp_ble_gap_set_scan_params (ble_scan_params_init b cfg)] /\
  scan_interval (ble_scan_params_init b cfg) = 16 * blescantime cfg /\
  scan_window (ble_scan_params_init b cfg) = 8 * BLESCANWINDOW b / 5 /\
  5 * scan_window (ble_scan_params_init b cfg) <= 8 * BLESCANWINDOW b
    < 5 * scan_window (ble_scan_params_init b cfg) + 5 /\
  (BLESCANWINDOW b mod 5 = 0 ->
     5 * scan_window (ble_scan_params_init b cfg) = 8 * BLESCANWINDOW b) /\
  0 <= scan_interval (ble_scan_params_init b cfg) < 65536 /\
  0 <= scan_window (ble_scan_params_init b cfg) < 65536 /\
  (BLESCANWINDOW b <= 10 * blescantime cfg ->
     scan_window (ble_scan_params_init b cfg)
       <= scan_interval (ble_scan_params_init b cfg)).
Proof.
  intros Ht Hw HB HS.
  assert (Hi : scan_interval (ble_scan_params_init b cfg)
               = 16 * blescantime cfg).
  { cbn. rewrite ms_to_ticks_floor by lia.
    replace (8 * (blescantime cfg * 10)) with (16 * blescantime cfg * 5)
      by lia.
    now rewrite Z.div_mul. }
  assert (Hwin : scan_window (ble_scan_params_init b cfg)
                 = 8 * BLESCANWINDOW b / 5).
  { cbn. now rewrite ms_to_ticks_floor. }
  split.
  { unfold start_BLEscan, register_ble_callback. rewrite HB.
    destruct e as [[|] ? ? ? ? ? ? ? ? ? ?]; [|discriminate].
    reflexivity. }
  rewrite Hi, Hwin.
  pose proof (Z.div_mod (8 * BLESCANWINDOW b) 5 ltac:(lia)) as Hdm.
  pose proof (Z.mod_pos_bound (8 * BLESCANWINDOW b) 5 ltac:(lia)) as Hmb.
  repeat split; try lia.
  intros Hmod.
  assert (Hm8 : (8 * BLESCANWINDOW b) mod 5 = 0).
  { rewrite Z.mul_mod, Hmod by lia. reflexivity. }
  lia.
Qed.

Lemma scan_parameters_in_ticks_witness :
  radio_commands
    (trace (start_BLEscan Sample.plain Sample.cfg_default Sample.all_ok
              {| ble_scan_params := None |}))
    = [Call.btStart; Call.esp_coex_preference_set ESP_COEX_PREFER_BT;
       Call.esp_bluedroid_init; Call.esp_bluedroid_enable;
       Call.esp_ble_gap_register_callback true;
       Call.esp_ble_gap_set_scan_params
         (ble_scan_params_init Sample.plain Sample.cfg_default)] /\
  scan_interval (ble_scan_params_init Sample.plain Sample.cfg_default)
    = 16 * blescantime Sample.cfg_default /\
  scan_window (ble_scan_params_init Sample.plain Sample.cfg_default)
    = 8 * BLESCANWINDOW Sample.plain / 5 /\
  5 * scan_window (ble_scan_params_init Sample.plain Sample.cfg_default)
    <= 8 * BLESCANWINDOW Sample.plain
    < 5 * scan_window (ble_scan_params_init Sample.plain Sample.cfg_default)
      + 5 /\
  (BLESCANWINDOW Sample.plain mod 5 = 0 ->
     5 * scan_window (ble_scan_params_init Sample.plain Sample.cfg_default)
     = 8 * BLESCANWINDOW Sample.plain) /\
  0 <= scan_interval (ble_scan_params_init Sample.plain Sample.cfg_default)
    < 65536 /\
  0 <= scan_window (ble_scan_params_init Sample.plain Sample.cfg_default)
    < 65536 /\
  (BLESCANWINDOW Sample.plain <= 10 * blescantime Sample.cfg_default ->
     scan_window (ble_scan_params_init Sample.plain Sample.cfg_default)
       <= scan_interval
            (ble_scan_params_init Sample.plain Sample.cfg_default)).
Proof.
  apply (scan_parameters_in_ticks Sample.plain Sample.cfg_default
           Sample.all_ok).
  - cbn; lia.
  - cbn; lia.
  - reflexivity.
  - reflexivity.
Defined.

(** C7, as the claim words it, fails: a 10 ms scan cycle with the 80 ms
    window yields 16 interval ticks against 128 window ticks; and a 3 ms
    window (4.8 ticks) is cut to 4 ticks, which is 2.5 ms. *)
Lemma window_can_exceed_interval :
  radio_commands
    (trace (start_BLEscan Sample.plain Sample.cfg_short_cycle Sample.all_ok
              Sample.fresh))
    = [Call.btStart; Call.esp_coex_preference_set ESP_COEX_PREFER_BT;
       Call.esp_bluedroid_init; Call.esp_bluedroid_enable;
       Call.esp_ble_gap_register_callback true;
       Call.esp_ble_gap_set_scan_params
         {| scan_type := BLE_SCAN_TYPE_PASSIVE;
            own_addr_type := BLE_ADDR_TYPE_RANDOM;
            scan_filter_policy := BLE_SCAN_FILTER_ALLOW_ALL;
            scan_interval := 16;
            scan_window := 128;
            scan_duplicate := BLE_SCAN_DUPLICATE_ENABLE |}] /\
  ~ (scan_window (ble_scan_params_init Sample.plain Sample.cfg_short_cycle)
     <= scan_interval
          (ble_scan_params_init Sample.plain Sample.cfg_short_cycle)) /\
  Ticks.ms_to_ticks 3 = 4 /\ (4 * 5 <> 3 * 8).
Proof.
  repeat split; try reflexivity; vm_compute; congruence.
Qed.

(** ** Signature search *)

Lemma c_str_ensMagicBytes : CString.c_str ensMagicBytes = Some ens_signature.
Proof. reflexivity. Qed.

(** On terminated memory the handler's [strstr] test is the byte search
    over the part before the first NUL. *)
Lemma strstr_not_null_terminated mem s e st :
  CString.c_str mem = Some s ->
  strstr_not_null mem ensMagicBytes e st
  = ret (CString.contains_bytes ens_signature s) e st.
Proof.
  intros Hs. unfold strstr_not_null, CString.strstr, CString.contains_bytes.
  rewrite Hs, c_str_ensMagicBytes.
  now destruct (CString.find_first ens_signature s).
Qed.

Lemma c_str_nul_free s rest :
  Forall (fun c => c <> 0) s -> CString.c_str (s ++ 0 :: rest) = Some s.
Proof.
  induction 1 as [|c s Hc _ IH]; [reflexivity|].
  cbn [app CString.c_str]. rewrite IH.
  now destruct (Z.eqb_spec c 0).
Qed.

(** Where the code and the byte search agree: a payload without zero
    bytes, followed by a zero in the buffer. *)
Lemma signature_search_on_nul_free_payload b cfg p rest e st :
  VERBOSE b = false ->
  COUNT_ENS b = true ->
  enscount cfg <> 0 ->
  search_evt p = ESP_GAP_SEARCH_INQ_RES_EVT ->
  macfilter_rejects b (ble_addr_type p) = false ->
  Forall (fun c => c <> 0) (payload p) ->
  ble_adv p = payload p ++ 0 :: rest ->
  gap_callback_handler b cfg ESP_GAP_BLE_SCAN_RESULT_EVT p e st
  = {| result := Done tt; after := st;
       trace :=
         [Call.mac_add (bda p) (rssi p)
            (if CString.contains_bytes ens_signature (payload p)
             then MAC_SNIFF_BLE_ENS else MAC_SNIFF_BLE)] |}.
Proof.
  intros HV HC HE Hevt Hpass Hnz Hadv.
  unfold gap_callback_handler.
  rewrite HV, HC, Hevt, Hpass.
  apply Z.eqb_neq in HE. rewrite HE. cbn.
  assert (Hs : CString.c_str (ble_adv p) = Some (payload p)).
  { generalize (c_str_nul_free (payload p) rest Hnz). now rewrite <- Hadv. }
  unfold bind.
  rewrite (strstr_not_null_terminated (ble_adv p) (payload p) e st Hs).
  cbn. now destruct (CString.contains_bytes ens_signature (payload p)).
Qed.

(** C2, on the code.  An 11-byte advertisement carrying Apple
    manufacturer data (company id 0x004c, so a zero byte) ahead of the
    0xfd6f service data contains the signature bytes 16 6f fd, yet the
    handler, with the signature count switched on, files the peer as
    MAC_SNIFF_BLE: [strstr] stops at the zero byte. *)
Theorem signature_behind_zero_byte_is_missed :
  payload (Sample.result_event BLE_ADDR_TYPE_PUBLIC
             Sample.adv_with_zero_before_signature 11)
    = [0x02; 0x01; 0x1a; 0x03; 0xff; 0x4c; 0x00; 0x03; 0x16; 0x6f; 0xfd] /\
  CString.contains_bytes ens_signature
    (payload (Sample.result_event BLE_ADDR_TYPE_PUBLIC
                Sample.adv_with_zero_before_signature 11)) = true /\
  gap_callback_handler Sample.ens Sample.cfg_ens ESP_GAP_BLE_SCAN_RESULT_EVT
    (Sample.result_event BLE_ADDR_TYPE_PUBLIC
       Sample.adv_with_zero_before_signature 11)
    Sample.all_ok Sample.fresh
  = {| result := Done tt; after := Sample.fresh;
       trace := [Call.mac_add Sample.peer (-60) MAC_SNIFF_BLE] |}.
Proof. repeat split; reflexivity. Qed.

(** The search is not bounded by the payload length either: signature
    bytes lying in the buffer behind a 3-byte advertisement are found. *)
Example signature_found_past_payload_end :
  payload (Sample.result_event BLE_ADDR_TYPE_PUBLIC
             ([0x02; 0x01; 0x06; 0x03; 0x16; 0x6f; 0xfd] ++ repeat 0 55) 3)
    = [0x02; 0x01; 0x06] /\
  CString.contains_bytes ens_signature [0x02; 0x01; 0x06] = false /\
  sightings
    (trace (gap_callback_handler Sample.ens Sample.cfg_ens
              ESP_GAP_BLE_SCAN_RESULT_EVT
              (Sample.result_event BLE_ADDR_TYPE_PUBLIC
                 ([0x02; 0x01; 0x06; 0x03; 0x16; 0x6f; 0xfd] ++ repeat 0 55)
                 3)
              Sample.all_ok Sample.fresh))
    = [Call.mac_add Sample.peer (-60) MAC_SNIFF_BLE_ENS].
Proof. repeat split; reflexivity. Qed.

(** The scenario of spec section 8: signature right after the flags. *)
Example signature_after_flags_is_found :
  sightings
    (trace (gap_callback_handler Sample.ens Sample.cfg_ens
              ESP_GAP_BLE_SCAN_RESULT_EVT
              (Sample.result_event BLE_ADDR_TYPE_PUBLIC
                 ([0x02; 0x01; 0x06; 0x16; 0x6f; 0xfd] ++ repeat 0 56) 6)
              Sample.all_ok Sample.fresh))
    = [Call.mac_add Sample.peer (-60) MAC_SNIFF_BLE_ENS].
Proof. reflexivity. Qed.

(** With the signature count compiled in but switched off in [cfg], no
    event of any kind reaches [mac_add]. *)
Lemma ens_switched_off_no_sighting b cfg event p e st :
  COUNT_ENS b = true -> enscount cfg = 0 ->
  sightings (trace (gap_callback_handler b cfg event p e st)) = [].
Proof.
  intros HC HE. unfold gap_callback_handler. rewrite HC, HE.
  destruct event, (VERBOSE b), (ble_adv p), (search_evt p),
    (macfilter_rejects b (ble_addr_type p)); reflexivity.
Qed.

(** With the signature count compiled out, a result that passes the
    filter is always filed as MAC_SNIFF_BLE. *)
Lemma without_count_ens_generic b cfg p e st :
  COUNT_ENS b = false ->
  search_evt p = ESP_GAP_SEARCH_INQ_RES_EVT ->
  macfilter_rejects b (ble_addr_type p) = false ->
  (VERBOSE b = true -> first_byte_readable p = true) ->
  result (gap_callback_handler b cfg ESP_GAP_BLE_SCAN_RESULT_EVT p e st)
    = Done tt /\
  sightings
    (trace (gap_callback_handler b cfg ESP_GAP_BLE_SCAN_RESULT_EVT p e st))
    = [Call.mac_add (bda p) (rssi p) MAC_SNIFF_BLE].
Proof.
  intros HC Hevt Hpass Hread.
  unfold gap_callback_handler, first_byte_readable in *.
  rewrite HC, Hevt, Hpass.
  destruct (VERBOSE b).
  - specialize (Hread eq_refl).
    destruct (ble_adv p); [discriminate|]. split; reflexivity.
  - split; reflexivity.
Qed.

(** C3, on the code.  A scan result from a public address, in a build
    with the signature count compiled in and [cfg.enscount] zero: the
    handler returns without any call, so the peer is not counted.  The
    same event in the build without the signature count is filed as
    MAC_SNIFF_BLE. *)
Theorem result_dropped_when_enscount_is_off :
  COUNT_ENS Sample.ens = true /\ enscount Sample.cfg_default = 0 /\
  macfilter_rejects Sample.ens BLE_ADDR_TYPE_PUBLIC = false /\
  gap_callback_handler Sample.ens Sample.cfg_default
    ESP_GAP_BLE_SCAN_RESULT_EVT
    (Sample.result_event BLE_ADDR_TYPE_PUBLIC
       Sample.adv_with_zero_before_signature 11)
    Sample.all_ok Sample.fresh
  = {| result := Done tt; after := Sample.fresh; trace := [] |} /\
  gap_callback_handler Sample.filtering Sample.cfg_default
    ESP_GAP_BLE_SCAN_RESULT_EVT
    (Sample.result_event BLE_ADDR_TYPE_PUBLIC
       Sample.adv_with_zero_before_signature 11)
    Sample.all_ok Sample.fresh
  = {| result := Done tt; after := Sample.fresh;
       trace := [Call.mac_add Sample.peer (-60) MAC_SNIFF_BLE] |}.
Proof. repeat split; reflexivity. Qed.

(** ** The static parameter block *)

(** The scan parameters are computed at the first registration only: a
    later registration under a changed [cfg.blescantime] submits the
    first values again. *)
Example scan_params_computed_once :
  let first := start_BLEscan Sample.plain Sample.cfg_default Sample.all_ok
                 Sample.fresh in
  radio_commands
    (trace (register_ble_callback Sample.plain Sample.cfg_short_cycle false
              Sample.all_ok (after first)))
  = [Call.esp_ble_gap_register_callback true;
     Call.esp_ble_gap_set_scan_params
       (ble_scan_params_init Sample.plain Sample.cfg_default)].
Proof. reflexivity. Qed.

(** A zero scan cycle puts any non-empty window above the interval. *)
Lemma zero_cycle_window_above_interval b cfg :
  blescantime cfg = 0 -> 1 <= BLESCANWINDOW b <= 40959 ->
  scan_interval (ble_scan_params_init b cfg)
    < scan_window (ble_scan_params_init b cfg).
Proof.
  intros Ht Hw. cbn. rewrite Ht.
  rewrite (ms_to_ticks_floor (BLESCANWINDOW b)) by lia.
  change (Ticks.ms_to_ticks (0 * 10)) with 0.
  apply Z.div_str_pos. lia.
Qed.

(** * Further properties of the scanner file *)

(** ** What one event can cause *)

(** Every path through the handler: the event kind, the switches, the
    first payload byte, the sub-event and the verdict of the filter. *)
Ltac handler_paths b cfg event p :=
  unfold gap_callback_handler, reads_ok, reaches_strstr, first_byte_readable,
    payload_terminated, strstr_not_null, CString.strstr;
  destruct (enscount cfg =? 0), event, (VERBOSE b), (COUNT_ENS b),
    (ble_adv p) as [|c0 adv], (search_evt p) as [| |?],
    (macfilter_rejects b (ble_addr_type p)); cbn.

Ltac emission_case :=
  split;
  [ intros H; try (now elim H); repeat split; auto; discriminate
  | intros (H1 & H2 & H3 & H4 & H5); try discriminate; intuition congruence ].

(** X1.  Whatever the event and the build, one run of the handler sends
    the radio stack nothing or one [esp_ble_gap_start_scanning] with
    [BLESCANTIME], files at most one peer, never does both, never calls
    [do_reset] and leaves the static of [register_ble_callback] alone. *)
Theorem handler_event_footprint b cfg event p e st :
  (radio_commands (trace (gap_callback_handler b cfg event p e st)) = [] \/
   radio_commands (trace (gap_callback_handler b cfg event p e st))
     = [Call.esp_ble_gap_start_scanning (BLESCANTIME b)]) /\
  (List.length (sightings (trace (gap_callback_handler b cfg event p e st)))
     <= 1)%nat /\
  (radio_commands (trace (gap_callback_handler b cfg event p e st)) = [] \/
   sightings (trace (gap_callback_handler b cfg event p e st)) = []) /\
  resets (trace (gap_callback_handler b cfg event p e st)) = [] /\
  after (gap_callback_handler b cfg event p e st) = st.
Proof.
  handler_paths b cfg event p; auto 6;
    destruct (c0 =? 0); cbn; auto 6;
    destruct (CString.c_str adv) as [s|]; cbn; auto 6;
    destruct (CString.find_first _ _); cbn; auto 6.
Qed.

(** X2.  The handler files a peer exactly on an inquiry result that the
    address filter lets pass, in a build without the signature count or
    with [cfg.enscount] non-zero, provided its reads stay inside readable
    memory. *)
Theorem sighting_emitted_iff b cfg event p e st :
  sightings (trace (gap_callback_handler b cfg event p e st)) <> [] <->
  event = ESP_GAP_BLE_SCAN_RESULT_EVT /\
  search_evt p = ESP_GAP_SEARCH_INQ_RES_EVT /\
  macfilter_rejects b (ble_addr_type p) = false /\
  (COUNT_ENS b = false \/ enscount cfg <> 0) /\
  reads_ok b cfg event p = true.
Proof.
  rewrite <- (Z.eqb_neq (enscount cfg) 0).
  handler_paths b cfg event p; try emission_case;
    destruct (c0 =? 0); cbn; try emission_case;
    destruct (CString.c_str adv) as [s|]; cbn; try emission_case;
    destruct (CString.find_first _ _); cbn; emission_case.
Qed.

(** X3.  A filed peer carries the address and the signal strength of the
    event unchanged, and is filed as MAC_SNIFF_BLE_ENS only in a build
    with the signature count and with [cfg.enscount] non-zero. *)
Theorem sighting_provenance b cfg event p e st c :
  In c (sightings (trace (gap_callback_handler b cfg event p e st))) ->
  (c = Call.mac_add (bda p) (rssi p) MAC_SNIFF_BLE \/
   c = Call.mac_add (bda p) (rssi p) MAC_SNIFF_BLE_ENS /\
   COUNT_ENS b = true /\ enscount cfg <> 0).
Proof.
  rewrite <- (Z.eqb_neq (enscount cfg) 0).
  handler_paths b cfg event p; try (intuition congruence);
    destruct (c0 =? 0); cbn; try (intuition congruence);
    destruct (CString.c_str adv) as [s|]; cbn; try (intuition congruence);
    destruct (CString.find_first _ _); cbn; intuition congruence.
Qed.

Lemma sighting_provenance_witness :
  Call.mac_add Sample.peer (-60) MAC_SNIFF_BLE
    = Call.mac_add
        (bda (Sample.result_event BLE_ADDR_TYPE_PUBLIC
                Sample.adv_with_zero_before_signature 11))
        (rssi (Sample.result_event BLE_ADDR_TYPE_PUBLIC
                 Sample.adv_with_zero_before_signature 11))
        MAC_SNIFF_BLE \/
  Call.mac_add Sample.peer (-60) MAC_SNIFF_BLE
    = Call.mac_add
        (bda (Sample.result_event BLE_ADDR_TYPE_PUBLIC
                Sample.adv_with_zero_before_signature 11))
        (rssi (Sample.result_event BLE_ADDR_TYPE_PUBLIC
                 Sample.adv_with_zero_before_signature 11))
        MAC_SNIFF_BLE_ENS /\
  COUNT_ENS Sample.filtering = true /\ enscount Sample.cfg_default <> 0.
Proof.
  apply (sighting_provenance Sample.filtering Sample.cfg_default
           ESP_GAP_BLE_SCAN_RESULT_EVT
           (Sample.result_event BLE_ADDR_TYPE_PUBLIC
              Sample.adv_with_zero_before_signature 11)
           Sample.all_ok Sample.fresh).
  left. reflexivity.
Defined.

(** ** The signature search, as a statement about bytes *)

Lemma has_prefix_iff needle hay :
  CString.has_prefix needle hay = true <-> exists rest, hay = needle ++ rest.
Proof.
  revert hay; induction needle as [|n needle IH]; intros hay.
  - split; [exists hay; reflexivity | reflexivity].
  - destruct hay as [|h hay]; cbn.
    + split; [discriminate | intros [rest H]; discriminate].
    + rewrite andb_true_iff, Z.eqb_eq, IH. split.
      * intros [-> [rest ->]]. now exists rest.
      * intros [rest H]. injection H as -> ->. split; [reflexivity|].
        now exists rest.
Qed.

Lemma find_first_some_iff needle hay :
  (exists i, CString.find_first needle hay = Some i)
  <-> occurs_in needle hay.
Proof.
  unfold occurs_in. induction hay as [|h hay IH].
  - unfold CString.find_first.
    destruct (CString.has_prefix needle []) eqn:P.
    + split; [|eauto]. intros _.
      apply has_prefix_iff in P as [rest P]. exists [], rest. exact P.
    + split; [intros [i H]; discriminate|].
      intros (before & behind & H).
      destruct before; cbn in H.
      * assert (CString.has_prefix needle [] = true)
          by (apply has_prefix_iff; now exists behind).
        congruence.
      * discriminate.
  - change (CString.find_first needle (h :: hay))
      with (if CString.has_prefix needle (h :: hay) then Some O
            else option_map S (CString.find_first needle hay)).
    destruct (CString.has_prefix needle (h :: hay)) eqn:P.
    + split; [|eauto]. intros _.
      apply has_prefix_iff in P as [rest P]. exists [], rest. exact P.
    + split.
      * intros [i H].
        destruct (CString.find_first needle hay) as [j|] eqn:F;
          [|discriminate].
        destruct IH as [IH _]. destruct (IH (ex_intro _ j eq_refl))
          as (before & behind & ->).
        now exists (h :: before), behind.
      * intros (before & behind & H).
        destruct before as [|x before]; cbn in H.
        -- assert (CString.has_prefix needle (h :: hay) = true)
             by (apply has_prefix_iff; now exists behind).
           congruence.
        -- injection H as -> ->.
           destruct IH as [_ IH].
           destruct (IH (ex_intro _ before (ex_intro _ behind eq_refl)))
             as [j ->].
           now exists (S j).
Qed.

Lemma contains_bytes_iff sig s :
  CString.contains_bytes sig s = true <-> occurs_in sig s.
Proof.
  rewrite <- find_first_some_iff. unfold CString.contains_bytes.
  destruct (CString.find_first sig s) as [i|].
  - split; eauto.
  - split; [discriminate | intros [i H]; discriminate].
Qed.

(** X4.  With the signature count on, an inquiry result that passes the
    address filter and whose buffer holds a NUL is filed exactly once,
    as MAC_SNIFF_BLE_ENS when the bytes 16 6f fd occur in a row before
    the first NUL of the buffer and as MAC_SNIFF_BLE otherwise. *)
Theorem ens_classification b cfg p s e st :
  COUNT_ENS b = true ->
  enscount cfg <> 0 ->
  search_evt p = ESP_GAP_SEARCH_INQ_RES_EVT ->
  macfilter_rejects b (ble_addr_type p) = false ->
  CString.c_str (ble_adv p) = Some s ->
  result (gap_callback_handler b cfg ESP_GAP_BLE_SCAN_RESULT_EVT p e st)
    = Done tt /\
  (occurs_in [0x16; 0x6f; 0xfd] s ->
     sightings
       (trace (gap_callback_handler b cfg ESP_GAP_BLE_SCAN_RESULT_EVT
                 p e st))
     = [Call.mac_add (bda p) (rssi p) MAC_SNIFF_BLE_ENS]) /\
  (~ occurs_in [0x16; 0x6f; 0xfd] s ->
     sightings
       (trace (gap_callback_handler b cfg ESP_GAP_BLE_SCAN_RESULT_EVT
                 p e st))
     = [Call.mac_add (bda p) (rssi p) MAC_SNIFF_BLE]).
Proof.
  intros HC HE Hevt Hpass Hs.
  apply Z.eqb_neq in HE.
  assert (Hrun : forall st',
            strstr_not_null (ble_adv p) ensMagicBytes e st'
            = ret (CString.contains_bytes ens_signature s) e st')
    by (intros st'; now apply strstr_not_null_terminated).
  change [0x16; 0x6f; 0xfd] with ens_signature.
  rewrite <- contains_bytes_iff.
  unfold gap_callback_handler. rewrite HC, HE, Hevt, Hpass.
  destruct (ble_adv p) as [|c0 adv] eqn:Hadv; [discriminate|].
  destruct (VERBOSE b); cbn; unfold bind; cbn; rewrite Hrun; cbn;
    destruct (CString.contains_bytes ens_signature s); cbn;
    repeat split; intros H; try reflexivity; congruence.
Qed.

Lemma ens_classification_witness :
  result (gap_callback_handler Sample.verbose Sample.cfg_ens
            ESP_GAP_BLE_SCAN_RESULT_EVT
            (Sample.result_event BLE_ADDR_TYPE_PUBLIC
               Sample.adv_with_zero_before_signature 11)
            Sample.all_ok Sample.fresh) = Done tt /\
  (occurs_in [0x16; 0x6f; 0xfd] [0x02; 0x01; 0x1a; 0x03; 0xff; 0x4c] ->
     sightings
       (trace (gap_callback_handler Sample.verbose Sample.cfg_ens
                 ESP_GAP_BLE_SCAN_RESULT_EVT
                 (Sample.result_event BLE_ADDR_TYPE_PUBLIC
                    Sample.adv_with_zero_before_signature 11)
                 Sample.all_ok Sample.fresh))
     = [Call.mac_add
          (bda (Sample.result_event BLE_ADDR_TYPE_PUBLIC
                  Sample.adv_with_zero_before_signature 11))
          (rssi (Sample.result_event BLE_ADDR_TYPE_PUBLIC
                   Sample.adv_with_zero_before_signature 11))
          MAC_SNIFF_BLE_ENS]) /\
  (~ occurs_in [0x16; 0x6f; 0xfd] [0x02; 0x01; 0x1a; 0x03; 0xff; 0x4c] ->
     sightings
       (trace (gap_callback_handler Sample.verbose Sample.cfg_ens
                 ESP_GAP_BLE_SCAN_RESULT_EVT
                 (Sample.result_event BLE_ADDR_TYPE_PUBLIC
                    Sample.adv_with_zero_before_signature 11)
                 Sample.all_ok Sample.fresh))
     = [Call.mac_add
          (bda (Sample.result_event BLE_ADDR_TYPE_PUBLIC
                  Sample.adv_with_zero_before_signature 11))
          (rssi (Sample.result_event BLE_ADDR_TYPE_PUBLIC
                   Sample.adv_with_zero_before_signature 11))
          MAC_SNIFF_BLE]).
Proof.
  apply (ens_classification Sample.verbose Sample.cfg_ens
           (Sample.result_event BLE_ADDR_TYPE_PUBLIC
              Sample.adv_with_zero_before_signature 11)
           [0x02; 0x01; 0x1a; 0x03; 0xff; 0x4c]
           Sample.all_ok Sample.fresh).
  - reflexivity.
  - cbn; lia.
  - reflexivity.
  - reflexivity.
  - reflexivity.
Defined.

(** ** Reads inside readable memory *)

(** X5.  The handler runs to its end exactly when the reads it makes
    stay inside readable memory: the first payload byte in a VERBOSE
    build, and a NUL-terminated buffer whenever the signature search is
    reached.  In particular a build without VERBOSE and without the
    signature count never reads the payload, and a signature search over
    a buffer without NUL is undefined. *)
Theorem handler_defined_iff_reads_in_bounds b cfg event p e st :
  (result (gap_callback_handler b cfg event p e st) = Done tt <->
     (VERBOSE b = true -> ble_adv p <> []) /\
     (reaches_strstr b cfg event p = true ->
        exists s, CString.c_str (ble_adv p) = Some s)) /\
  (VERBOSE b = false -> COUNT_ENS b = false ->
     result (gap_callback_handler b cfg event p e st) = Done tt) /\
  (reaches_strstr b cfg event p = true ->
     CString.c_str (ble_adv p) = None ->
     result (gap_callback_handler b cfg event p e st) = Undefined).
Proof.
  assert (Hiff := handler_done_iff b cfg event p e st).
  assert (Hok : reads_ok b cfg event p = true <->
            (VERBOSE b = true -> ble_adv p <> []) /\
            (reaches_strstr b cfg event p = true ->
               exists s, CString.c_str (ble_adv p) = Some s)).
  { unfold reads_ok, first_byte_readable, payload_terminated.
    destruct (VERBOSE b), (reaches_strstr b cfg event p),
      (ble_adv p) as [|c0 adv]; cbn;
      try destruct (if c0 =? 0 then _ else _);
      (split;
       [ intros H; try discriminate; split; intros; eauto; discriminate
       | intros [H1 H2]; try reflexivity;
         try (now elim (H1 eq_refl));
         try (destruct (H2 eq_refl); discriminate) ]). }
  split; [now rewrite Hiff|]. split.
  - intros HV HC. apply Hiff.
    unfold reads_ok, reaches_strstr. rewrite HV, HC.
    destruct event; cbn; try reflexivity.
    now rewrite !andb_false_r.
  - intros Hreach Hnone.
    unfold reaches_strstr in Hreach.
    destruct event; try discriminate.
    apply andb_true_iff in Hreach as [Hreach HE].
    apply andb_true_iff in Hreach as [Hreach HC].
    apply andb_true_iff in Hreach as [Hevt Hpass].
    apply negb_true_iff in Hpass.
    unfold gap_callback_handler, strstr_not_null, CString.strstr.
    rewrite HC, HE, Hpass, Hevt, Hnone.
    destruct (search_evt p); try discriminate.
    destruct (VERBOSE b), (ble_adv p); reflexivity.
Qed.

(** X6.  Events the handler has no case for, and scan-result events with
    an unknown sub-event, cause no call at all beyond the VERBOSE log
    line of the first payload byte. *)
Theorem unknown_events_ignored b cfg event p e st :
  (exists code, event = ESP_GAP_BLE_OTHER_EVT code) \/
  (event = ESP_GAP_BLE_SCAN_RESULT_EVT /\
   exists code, search_evt p = ESP_GAP_SEARCH_OTHER_EVT code) ->
  trace (gap_callback_handler b cfg event p e st)
  = (if VERBOSE b
     then match ble_adv p with
          | [] => []
          | c :: _ =>
              [Call.ESP_LOG ESP_LOG_VERBOSE TAG
                 "BT payload rcvd -> type: 0x%.2x -> %s"
                 [ArgZ c; ArgS (btsig_gap_type c)]]
          end
     else []).
Proof.
  intros [[code ->] | [-> [code Hevt]]]; unfold gap_callback_handler;
    [|rewrite Hevt]; destruct (VERBOSE b), (ble_adv p); reflexivity.
Qed.

Lemma unknown_events_ignored_witness :
  trace (gap_callback_handler Sample.verbose Sample.cfg_ens
           (ESP_GAP_BLE_OTHER_EVT 7) Sample.inquiry_complete
           Sample.all_ok Sample.fresh)
  = (if VERBOSE Sample.verbose
     then match ble_adv Sample.inquiry_complete with
          | [] => []
          | c :: _ =>
              [Call.ESP_LOG ESP_LOG_VERBOSE TAG
                 "BT payload rcvd -> type: 0x%.2x -> %s"
                 [ArgZ c; ArgS (btsig_gap_type c)]]
          end
     else []).
Proof.
  apply (unknown_events_ignored Sample.verbose Sample.cfg_ens
           (ESP_GAP_BLE_OTHER_EVT 7) Sample.inquiry_complete
           Sample.all_ok Sample.fresh).
  left. exists 7. reflexivity.
Defined.

(** ** Runs of events *)

(** X7.  The handler keeps nothing from one event to the next: over any
    sequence of events whose reads stay inside readable memory, the
    calls made are the calls of each event handled on its own, in the
    order of delivery, and the static is as before. *)
Theorem deliver_event_by_event b cfg events e st :
  Forall (fun ep => reads_ok b cfg (fst ep) (snd ep) = true) events ->
  result (deliver b cfg events e st) = Done tt /\
  after (deliver b cfg events e st) = st /\
  trace (deliver b cfg events e st)
  = flat_map
      (fun ep => trace (gap_callback_handler b cfg (fst ep) (snd ep) e st))
      events.
Proof.
  intros Hall.
  destruct (deliver_done b cfg events e st Hall) as [HD HA].
  repeat split; [exact HD | exact HA |].
  induction Hall as [|[event p] events Hep Hall IH]; [reflexivity|].
  cbn [fst snd] in Hep.
  apply (handler_done_iff b cfg event p e st) in Hep.
  destruct (handler_frame b cfg event p e st e st) as (_ & _ & Hst).
  cbn [deliver flat_map fst snd].
  destruct (bind_done_trace (gap_callback_handler b cfg event p)
              (fun _ => deliver b cfg events) e st tt Hep) as (-> & _ & _).
  rewrite Hst. f_equal. apply IH; apply (deliver_done b cfg events e st Hall).
Qed.

Lemma deliver_event_by_event_witness :
  result (deliver Sample.verbose Sample.cfg_ens
            [(ESP_GAP_BLE_SCAN_PARAM_SET_COMPLETE_EVT,
              Sample.inquiry_complete);
             (ESP_GAP_BLE_SCAN_RESULT_EVT,
              Sample.result_event BLE_ADDR_TYPE_PUBLIC
                Sample.adv_with_zero_before_signature 11)]
            Sample.all_ok Sample.fresh) = Done tt /\
  after (deliver Sample.verbose Sample.cfg_ens
           [(ESP_GAP_BLE_SCAN_PARAM_SET_COMPLETE_EVT,
             Sample.inquiry_complete);
            (ESP_GAP_BLE_SCAN_RESULT_EVT,
             Sample.result_event BLE_ADDR_TYPE_PUBLIC
               Sample.adv_with_zero_before_signature 11)]
           Sample.all_ok Sample.fresh) = Sample.fresh /\
  trace (deliver Sample.verbose Sample.cfg_ens
           [(ESP_GAP_BLE_SCAN_PARAM_SET_COMPLETE_EVT,
             Sample.inquiry_complete);
            (ESP_GAP_BLE_SCAN_RESULT_EVT,
             Sample.result_event BLE_ADDR_TYPE_PUBLIC
               Sample.adv_with_zero_before_signature 11)]
           Sample.all_ok Sample.fresh)
  = flat_map
      (fun ep =>
         trace (gap_callback_handler Sample.verbose Sample.cfg_ens
                  (fst ep) (snd ep) Sample.all_ok Sample.fresh))
      [(ESP_GAP_BLE_SCAN_PARAM_SET_COMPLETE_EVT, Sample.inquiry_complete);
       (ESP_GAP_BLE_SCAN_RESULT_EVT,
        Sample.result_event BLE_ADDR_TYPE_PUBLIC
          Sample.adv_with_zero_before_signature 11)].
Proof.
  apply (deliver_event_by_event Sample.verbose Sample.cfg_ens).
  repeat constructor.
Defined.

Lemma restart_event_commands b cfg event p e st :
  reads_ok b cfg event p = true ->
  radio_commands (trace (gap_callback_handler b cfg event p e st))
  = (if is_restart_event (event, p)
     then [Call.esp_ble_gap_start_scanning (BLESCANTIME b)] else []).
Proof.
  unfold is_restart_event; cbn [fst snd].
  handler_paths b cfg event p; intros H; try discriminate;
    try reflexivity;
    destruct (c0 =? 0); cbn in *; try discriminate; try reflexivity;
    destruct (CString.c_str adv) as [s|]; cbn in *;
    try discriminate; try reflexivity;
    destruct (CString.find_first _ _); reflexivity.
Qed.

(** X8.  Over a sequence of events whose reads stay inside readable
    memory, the radio stack receives one scan start per
    parameter-set-complete or inquiry-complete event and no other
    command: as many starts as there are such events. *)
Theorem one_restart_per_completion b cfg events e st :
  Forall (fun ep => reads_ok b cfg (fst ep) (snd ep) = true) events ->
  radio_commands (trace (deliver b cfg events e st))
  = repeat (Call.esp_ble_gap_start_scanning (BLESCANTIME b))
      (List.length (filter is_restart_event events)).
Proof.
  intros Hall.
  induction Hall as [|[event p] events Hep Hall IH]; [reflexivity|].
  cbn [fst snd] in Hep.
  pose proof (restart_event_commands b cfg event p e st Hep) as Hcmd.
  apply (handler_done_iff b cfg event p e st) in Hep.
  destruct (handler_frame b cfg event p e st e st) as (_ & _ & Hst).
  cbn [deliver filter].
  destruct (bind_done_trace (gap_callback_handler b cfg event p)
              (fun _ => deliver b cfg events) e st tt Hep) as (-> & _ & _).
  rewrite Hst, radio_commands_app, Hcmd, IH.
  now destruct (is_restart_event (event, p)).
Qed.

Lemma one_restart_per_completion_witness :
  radio_commands
    (trace (deliver Sample.verbose Sample.cfg_ens
              [(ESP_GAP_BLE_SCAN_PARAM_SET_COMPLETE_EVT,
                Sample.inquiry_complete);
               (ESP_GAP_BLE_SCAN_RESULT_EVT,
                Sample.result_event BLE_ADDR_TYPE_PUBLIC
                  Sample.adv_with_zero_before_signature 11);
               (ESP_GAP_BLE_SCAN_RESULT_EVT, Sample.inquiry_complete)]
              Sample.all_ok Sample.fresh))
  = repeat (Call.esp_ble_gap_start_scanning (BLESCANTIME Sample.verbose))
      (List.length
         (filter is_restart_event
            [(ESP_GAP_BLE_SCAN_PARAM_SET_COMPLETE_EVT,
              Sample.inquiry_complete);
             (ESP_GAP_BLE_SCAN_RESULT_EVT,
              Sample.result_event BLE_ADDR_TYPE_PUBLIC
                Sample.adv_with_zero_before_signature 11);
             (ESP_GAP_BLE_SCAN_RESULT_EVT, Sample.inquiry_complete)])).
Proof.
  apply (one_restart_per_completion Sample.verbose Sample.cfg_ens).
  repeat constructor.
Defined.

(** ** The static parameter block, registration and teardown *)

(** X9.  The scan parameters are fixed by the first registration: a
    later registration, also after an unregistration in between and
    under any other configuration, sends the radio stack the very
    commands of the first one. *)
Theorem scan_params_fixed_by_first_registration
    b cfg e b1 cfg1 e1 b2 cfg2 e2 st :
  radio_commands
    (trace (register_ble_callback b2 cfg2 false e2
              (after (register_ble_callback b cfg false e st))))
  = radio_commands (trace (register_ble_callback b cfg false e st)) /\
  radio_commands
    (trace (register_ble_callback b2 cfg2 false e2
              (after (register_ble_callback b1 cfg1 true e1
                        (after (register_ble_callback b cfg false e st))))))
  = radio_commands (trace (register_ble_callback b cfg false e st)) /\
  after (register_ble_callback b1 cfg1 true e1 st) = st.
Proof.
  unfold register_ble_callback.
  destruct st as [[params|]]; repeat split; reflexivity.
Qed.

(** X10.  A scanner start followed by a scanner stop, the controller
    answering both, leaves the radio stack without callback and the
    coexistence preference on WiFi, whatever they were before, while the
    scan parameters computed at the start stay stored for the next
    start. *)
Theorem start_then_stop b cfg e st installed prefer :
  BLECOUNTER b = true ->
  btStart_result e = true ->
  btStop_result e = true ->
  result (start_BLEscan b cfg e st) = Done tt /\
  result (stop_BLEscan b cfg e (after (start_BLEscan b cfg e st)))
    = Done tt /\
  handler_installed_after installed (trace (start_BLEscan b cfg e st))
    = true /\
  handler_installed_after installed
    (trace (start_BLEscan b cfg e st)
     ++ trace (stop_BLEscan b cfg e (after (start_BLEscan b cfg e st))))
    = false /\
  coex_preference_after prefer (trace (start_BLEscan b cfg e st))
    = ESP_COEX_PREFER_BT /\
  coex_preference_after prefer
    (trace (start_BLEscan b cfg e st)
     ++ trace (stop_BLEscan b cfg e (after (start_BLEscan b cfg e st))))
    = ESP_COEX_PREFER_WIFI /\
  ble_scan_params
    (after (stop_BLEscan b cfg e (after (start_BLEscan b cfg e st))))
    = Some (match ble_scan_params st with
            | Some params => params
            | None => ble_scan_params_init b cfg
            end).
Proof.
  intros HB HS HP.
  unfold start_BLEscan, stop_BLEscan, register_ble_callback. rewrite HB.
  destruct e as [bs bp ? ? ? ? ? ? ? ? ?]; cbn in HS, HP; subst bs bp.
  destruct st as [[params|]]; repeat split; reflexivity.
Qed.

Lemma start_then_stop_witness :
  result (start_BLEscan Sample.plain Sample.cfg_default Sample.all_ok
            Sample.fresh) = Done tt /\
  result (stop_BLEscan Sample.plain Sample.cfg_default Sample.all_ok
            (after (start_BLEscan Sample.plain Sample.cfg_default
                      Sample.all_ok Sample.fresh))) = Done tt /\
  handler_installed_after false
    (trace (start_BLEscan Sample.plain Sample.cfg_default Sample.all_ok
              Sample.fresh)) = true /\
  handler_installed_after false
    (trace (start_BLEscan Sample.plain Sample.cfg_default Sample.all_ok
              Sample.fresh)
     ++ trace (stop_BLEscan Sample.plain Sample.cfg_default Sample.all_ok
                 (after (start_BLEscan Sample.plain Sample.cfg_default
                           Sample.all_ok Sample.fresh)))) = false /\
  coex_preference_after ESP_COEX_PREFER_WIFI
    (trace (start_BLEscan Sample.plain Sample.cfg_default Sample.all_ok
              Sample.fresh)) = ESP_COEX_PREFER_BT /\
  coex_preference_after ESP_COEX_PREFER_WIFI
    (trace (start_BLEscan Sample.plain Sample.cfg_default Sample.all_ok
              Sample.fresh)
     ++ trace (stop_BLEscan Sample.plain Sample.cfg_default Sample.all_ok
                 (after (start_BLEscan Sample.plain Sample.cfg_default
                           Sample.all_ok Sample.fresh))))
    = ESP_COEX_PREFER_WIFI /\
  ble_scan_params
    (after (stop_BLEscan Sample.plain Sample.cfg_default Sample.all_ok
              (after (start_BLEscan Sample.plain Sample.cfg_default
                        Sample.all_ok Sample.fresh))))
    = Some (match ble_scan_params Sample.fresh with
            | Some params => params
            | None => ble_scan_params_init Sample.plain Sample.cfg_default
            end).
Proof.
  apply (start_then_stop Sample.plain Sample.cfg_default Sample.all_ok
           Sample.fresh false ESP_COEX_PREFER_WIFI); reflexivity.
Defined.

(** ** Ticks *)

(** X11.  Evaluated in IEEE double precision, as the compiled code does,
    the two initialiser expressions give exactly the interval and window
    of the rational model: for a scan cycle that fits 8 bits and a window
    of up to 10240 ms no rounding of the division by 0.625 shows in the
    result. *)
Theorem double_precision_gives_the_same_parameters b cfg :
  0 <= blescantime cfg <= 255 ->
  0 <= BLESCANWINDOW b <= 10240 ->
  Binary64.ms_to_ticks (blescantime cfg * 10)
    = Some (scan_interval (ble_scan_params_init b cfg)) /\
  Binary64.ms_to_ticks (BLESCANWINDOW b)
    = Some (scan_window (ble_scan_params_init b cfg)).
Proof.
  intros Ht Hw. split; apply double_division_matches_rational; lia.
Qed.

Lemma double_precision_gives_the_same_parameters_witness :
  Binary64.ms_to_ticks (blescantime Sample.cfg_default * 10)
    = Some (scan_interval
              (ble_scan_params_init Sample.plain Sample.cfg_default)) /\
  Binary64.ms_to_ticks (BLESCANWINDOW Sample.plain)
    = Some (scan_window
              (ble_scan_params_init Sample.plain Sample.cfg_default)).
Proof.
  apply (double_precision_gives_the_same_parameters Sample.plain
           Sample.cfg_default); cbn; lia.
Defined.

(** X12.  On the range that fits 16 bits the conversion to ticks never
    decreases when the milliseconds grow, and five more milliseconds
    are exactly eight more ticks. *)
Theorem ms_to_ticks_steps x y :
  0 <= x <= y -> y <= 40959 ->
  Ticks.ms_to_ticks x <= Ticks.ms_to_ticks y /\
  (x + 5 <= 40959 -> Ticks.ms_to_ticks (x + 5) = Ticks.ms_to_ticks x + 8).
Proof.
  intros Hxy Hy. split.
  - rewrite !ms_to_ticks_floor by lia.
    apply Z.div_le_mono; lia.
  - intros Hx. rewrite !ms_to_ticks_floor by lia.
    replace (8 * (x + 5)) with (8 * x + 8 * 5) by lia.
    now rewrite Z.div_add by lia.
Qed.

Lemma ms_to_ticks_steps_witness :
  Ticks.ms_to_ticks 80 <= Ticks.ms_to_ticks 83 /\
  (80 + 5 <= 40959 -> Ticks.ms_to_ticks (80 + 5) = Ticks.ms_to_ticks 80 + 8).
Proof. apply (ms_to_ticks_steps 80 83); lia. Defined.

(** ** The VERBOSE tables *)

Ltac split_positive p n :=
  lazymatch n with
  | O => idtac
  | S ?n' =>
      destruct p as [p|p|];
      [ try reflexivity; split_positive p n'
      | try reflexivity; split_positive p n'
      | try reflexivity ]
  end.

Lemma btsig_gap_type_unknown t :
  existsb (Z.eqb t) known_gap_types = false ->
  btsig_gap_type t = "Unknown type"%string.
Proof.
  destruct t as [|p|p]; try reflexivity.
  split_positive p 8%nat; intros H; try reflexivity; discriminate H.
Qed.

(** X13.  The names [btsig_gap_type] gives its 37 case labels are
    pairwise different and none is "Unknown type", so the label can be
    read back from the logged name; every other value is named "Unknown
    type".  [bt_addr_t_to_string] likewise names the four address types
    differently. *)
Theorem log_names_identify_their_codes :
  (forall t, In t known_gap_types ->
     gap_type_of_name (btsig_gap_type t) = Some t) /\
  (forall t, ~ In t known_gap_types ->
     btsig_gap_type t = "Unknown type"%string) /\
  gap_type_of_name "Unknown type" = None /\
  (forall a a', bt_addr_t_to_string a = bt_addr_t_to_string a' -> a = a').
Proof.
  repeat split.
  - intros t Hin. unfold known_gap_types in Hin. cbn [In] in Hin.
    repeat (destruct Hin as [<- | Hin]; [vm_compute; reflexivity|]).
    contradiction.
  - intros t Hnot. apply btsig_gap_type_unknown.
    destruct (existsb (Z.eqb t) known_gap_types) eqn:E; [|reflexivity].
    apply existsb_exists in E as (x & Hin & Heq).
    apply Z.eqb_eq in Heq. subst x. contradiction.
  - intros a a'. destruct a, a'; intros H; try reflexivity; discriminate H.
Qed.

(** * setup() of main.cpp *)

(** ** The feature list *)

Lemma string_length_append (s t : string) :
  String.length (s ++ t) = (String.length s + String.length t)%nat.
Proof. induction s; cbn; auto. Qed.

Lemma string_append_assoc (s t u : string) :
  ((s ++ t) ++ u = s ++ t ++ u)%string.
Proof. induction s; cbn; [reflexivity | now f_equal]. Qed.

Lemma string_append_empty (s : string) : (s ++ "" = s)%string.
Proof. induction s; cbn; [reflexivity | now f_equal]. Qed.

Lemma string_concat_cons (s : string) ws :
  String.concat "" (s :: ws) = (s ++ String.concat "" ws)%string.
Proof.
  destruct ws; cbn; [now rewrite string_append_empty | reflexivity].
Qed.

Lemma list_sum_cons n l : list_sum (n :: l) = (n + list_sum l)%nat.
Proof. reflexivity. Qed.

Lemma strcat_P_overflowed writes :
  fold_left Setup.strcat_P writes None = None.
Proof. induction writes; auto. Qed.

(** A run of [strcat_P] calls onto a buffer holding [f]: all of it is
    appended if everything fits together with the terminator, and the
    buffer is overrun otherwise. *)
Lemma strcat_P_fold writes : forall f,
  (String.length f < Setup.FEATURES_SIZE)%nat ->
  fold_left Setup.strcat_P writes (Some f)
  = if (String.length f + list_sum (map String.length writes)
        <? Setup.FEATURES_SIZE)%nat
    then Some (f ++ String.concat "" writes)%string
    else None.
Proof.
  induction writes as [|w writes IH]; intros f Hf.
  - cbn [fold_left map String.concat]. change (list_sum []) with O.
    rewrite Nat.add_0_r, string_append_empty.
    apply Nat.ltb_lt in Hf. now rewrite Hf.
  - cbn [fold_left map]. rewrite list_sum_cons.
    unfold Setup.strcat_P at 2.
    destruct (String.length f + String.length w <? Setup.FEATURES_SIZE)%nat
      eqn:E.
    + apply Nat.ltb_lt in E.
      rewrite IH by (now rewrite string_length_append).
      rewrite string_length_append, string_concat_cons,
        string_append_assoc, Nat.add_assoc.
      reflexivity.
    + rewrite strcat_P_overflowed.
      apply Nat.ltb_ge in E.
      destruct (String.length f
                + (String.length w + list_sum (map String.length writes))
                <? Setup.FEATURES_SIZE)%nat eqn:E'; [|reflexivity].
      apply Nat.ltb_lt in E'. lia.
Qed.

Lemma feature_length present name :
  (list_sum (map String.length (Setup.feature present name))
   <= String.length name)%nat.
Proof. destruct present; cbn; lia. Qed.

Ltac bound_feature_piece :=
  repeat match goal with
         | |- context [if ?c then _ else _] => destruct c
         end;
  cbn; lia.

Lemma features_length_bound b hw rt :
  (Setup.features_length b hw rt <= 178)%nat.
Proof.
  unfold Setup.features_length, Setup.features_writes.
  repeat rewrite map_app, list_sum_app.
  change 178%nat
    with (5 + (4 + (5 + (6 + (13 + (4 + (5 + (4 + (4 + (4 + (24 + (5 + (4 +
          (5 + (3 + (4 + (7 + (11 + (14 + (7 + (4 + (6 + (6 + (5 + (7 +
          (7 + 5))))))))))))))))))))))))))%nat.
  repeat (apply Nat.add_le_mono;
          [unfold Setup.feature; bound_feature_piece|]).
  unfold Setup.feature; bound_feature_piece.
Qed.

(** X14.  The feature list [setup()] assembles needs at most 178
    characters, whatever is compiled in, but its buffer has 100 bytes:
    the list is complete when it needs fewer than 100 characters and the
    buffer is overrun otherwise, which a board with many features
    reaches. *)
Theorem features_buffer b hw rt :
  (Setup.features_length b hw rt <= 178)%nat /\
  ((Setup.features_length b hw rt < 100)%nat ->
     Setup.features b hw rt
     = Some (String.concat "" (Setup.features_writes b hw rt))) /\
  (Setup.features b hw rt = None <->
     (100 <= Setup.features_length b hw rt)%nat) /\
  (Setup.features_length Sample.ens board_with_many_features all_inits_ok
     = 106%nat /\
   Setup.features Sample.ens board_with_many_features all_inits_ok = None).
Proof.
  assert (Hfold := strcat_P_fold (Setup.features_writes b hw rt) ""
                     ltac:(cbn; unfold Setup.FEATURES_SIZE; lia)).
  cbn [String.length Nat.add append] in Hfold.
  fold (Setup.features_length b hw rt) in Hfold.
  fold (Setup.features b hw rt) in Hfold.
  unfold Setup.FEATURES_SIZE in Hfold.
  split; [apply features_length_bound|].
  split; [|split].
  - intros Hlt. apply Nat.ltb_lt in Hlt. now rewrite Hfold, Hlt.
  - rewrite Hfold.
    destruct (Setup.features_length b hw rt <? 100)%nat eqn:E.
    + apply Nat.ltb_lt in E. split; [discriminate | lia].
    + apply Nat.ltb_ge in E. split; [auto | reflexivity].
  - split; reflexivity.
Qed.

(** A board with display, battery, GPS, LoRa and button fits. *)
Example features_of_a_common_board :
  Setup.features Sample.filtering
    {| Setup.EXT_POWER_SW := false; Setup.HAS_PMU := true;
       Setup.HAS_IP5306 := false; Setup.HAS_DISPLAY := true;
       Setup.BOARD_HAS_PSRAM := true; Setup.HAS_LED := true;
       Setup.HAS_TWO_LED := false; Setup.HAS_RGB_LED := false;
       Setup.HAS_ANTENNA_SWITCH := false; Setup.BAT_MEASURE_ADC := false;
       Setup.USE_OTA := true; Setup.HAS_GPS := true;
       Setup.HAS_SENSORS := false; Setup.HAS_SENSOR_1 := false;
       Setup.HAS_SENSOR_2 := false; Setup.HAS_SENSOR_3 := false;
       Setup.HAS_LORA := true; Setup.HAS_SPI := false;
       Setup.HAS_MQTT := false; Setup.HAS_SDCARD := false;
       Setup.HAS_SDS011 := false; Setup.HAS_MATRIX_DISPLAY := false;
       Setup.HAS_E_PAPER_DISPLAY := false; Setup.PAYLOAD_ENCODER := 2;
       Setup.HAS_RTC := false; Setup.HAS_DCF77 := false;
       Setup.HAS_IF482 := false; Setup.WIFICOUNTER := true;
       Setup.HAS_BME := false; Setup.HAS_BME680 := false;
       Setup.HAS_BME280 := false; Setup.HAS_BMP180 := false;
       Setup.HAS_BUTTON := true; Setup.BUTTON_PULLUP := true;
       Setup.TIME_SYNC_LORAWAN := true;
       Setup.TIME_SYNC_LORASERVER := false |}
    all_inits_ok
  = Some (" PMU OLED PSRAM LED BATT OTA BLE GPS LORA FILTER PACKED WIFI"
          ++ " BTN_PU TIME")%string.
Proof. reflexivity. Qed.

(** ** The Bluetooth bring-up *)

Lemma in_map_scanner c t : In (Setup.scanner c) (map Setup.scanner t) <-> In c t.
Proof.
  split; [|apply in_map].
  intros H. apply in_map_iff in H as (x & Hx & Hin). now injection Hx as ->.
Qed.

(** X15.  The Bluetooth block of [setup()] gets the event handler
    installed exactly when the BLE counter is compiled in, libpax is
    not, [cfg.blescan] is non-zero and [btStart] succeeds, and ends in
    the device restart exactly when all but the last hold.  With the
    scanner disabled in [cfg] it only calls [btStop] and goes on whatever
    that answers; without the BLE counter it stops the controller,
    releases the Bluetooth memory and sets the coexistence preference to
    WiFi; with libpax it calls nothing of the scanner's. *)
Theorem bluetooth_block_policy LIBPAX TAG b blescan cfg e st :
  (In (Setup.scanner (Call.esp_ble_gap_register_callback true))
      (Setup.calls (Setup.bluetooth_block LIBPAX TAG b blescan cfg e st))
   <-> BLECOUNTER b = true /\ LIBPAX = false /\ blescan <> 0 /\
       btStart_result e = true) /\
  (Setup.ended (Setup.bluetooth_block LIBPAX TAG b blescan cfg e st)
     = Restarted
   <-> BLECOUNTER b = true /\ LIBPAX = false /\ blescan <> 0 /\
       btStart_result e = false) /\
  (BLECOUNTER b = true -> LIBPAX = false -> blescan = 0 ->
     Setup.bluetooth_block LIBPAX TAG b blescan cfg e st
     = {| Setup.ended := Done tt; Setup.statics_after := st;
          Setup.calls := [Setup.strcat_P_features " BLE";
                          Setup.scanner Call.btStop] |}) /\
  (BLECOUNTER b = false -> LIBPAX = false ->
     Setup.bluetooth_block LIBPAX TAG b blescan cfg e st
     = {| Setup.ended := Done tt; Setup.statics_after := st;
          Setup.calls :=
            [Setup.scanner Call.btStop;
             Setup.esp_bt_mem_release Setup.ESP_BT_MODE_BTDM;
             Setup.scanner
               (Call.esp_coex_preference_set ESP_COEX_PREFER_WIFI)] |}) /\
  (LIBPAX = true ->
     Setup.scanner_calls
       (Setup.calls (Setup.bluetooth_block LIBPAX TAG b blescan cfg e st))
     = []).
Proof.
  rewrite <- (Z.eqb_neq blescan 0).
  unfold Setup.bluetooth_block, start_BLEscan, register_ble_callback.
  destruct (Z.eqb_spec blescan 0) as [Hz|Hz];
    destruct (BLECOUNTER b), LIBPAX,
      e as [[|] bp ? ? ? ? ? ? ? ? ?], st as [[params|]]; cbn;
    repeat split; intros; try reflexivity; try discriminate;
    try congruence;
    repeat match goal with
           | H : _ /\ _ |- _ => destruct H
           | H : _ \/ _ |- _ => destruct H
           | H : False |- _ => contradiction
           end;
    try discriminate; try congruence; auto 12.
Qed.
